(** * Document_base_chatbot: the React client and the owner-scoped index

    A shallow embedding of the client code of the document question-answering
    application (services/api.js, pages/AskPage.js, the dashboard page,
    pages/UploadPage.js and the two early single-file pages), together with
    a model of the vector index the client talks to.

    JavaScript values are embedded as a small untyped value type: numbers
    are IEEE-754 binary64 values (Rocq's primitive floats), strings are
    sequences of UTF-16 code units, objects are field lists.  Asynchronous
    handlers are split at their [await]: one function for the synchronous
    part that issues the request, one for what happens when the request
    settles. *)

From Stdlib Require Import Floats.PrimFloat QArith.
From stdpp Require Import gmap strings list sorting.

Set Warnings "-inexact-float,-register-all".
Set Default Proof Using "Type".

(** ** JavaScript values *)

Module Js.

(** A JavaScript string: its UTF-16 code units. *)
Definition jsstring := list N.

(** An ASCII literal of the source as a JavaScript string. *)
Definition js (s : string) : jsstring :=
  Ascii.N_of_ascii <$> String.list_ascii_of_string s.

Inductive JsValue :=
| JUndefined
| JNull
| JBool (b : bool)
| JNum (x : float)
| JStr (s : jsstring)
| JArr (items : list JsValue)
| JObj (fields : list (string * JsValue)).

(** Exceptions: a computation either returns or throws a value. *)
Inductive Exc (A : Type) :=
| Ok (a : A)
| Throw (e : JsValue).
Arguments Ok {A} a.
Arguments Throw {A} e.

#[global] Instance Exc_ret : MRet Exc := λ A a, Ok a.

#[global] Instance Exc_bind : MBind Exc := λ A B k m,
  match m with
  | Ok a => k a
  | Throw e => Throw e
  end.

(** The value a [TypeError] carries is not inspected by the code. *)
Definition TypeError : JsValue := JObj [("name", JStr (js "TypeError"))].

(** ToBoolean. *)
Definition truthy (v : JsValue) : bool :=
  match v with
  | JUndefined | JNull => false
  | JBool b => b
  | JNum x => negb (PrimFloat.eqb x 0%float || PrimFloat.is_nan x)
  | JStr s => negb (bool_decide (s = []))
  | JArr _ | JObj _ => true
  end.

(** [a || b]. *)
Definition jor (a b : JsValue) : JsValue := if truthy a then a else b.

Definition nullish (v : JsValue) : bool :=
  match v with
  | JUndefined | JNull => true
  | _ => false
  end.

(** An option the caller passed as the number zero, or left out. *)
Definition zero_or_omitted (v : JsValue) : Prop :=
  v = JNum 0%float ∨ v = JUndefined.

(** The own property [k] of an object written as a field list.  As in an
    object literal or a parsed JSON text, the last binding of a key wins. *)
Fixpoint field (k : string) (fs : list (string * JsValue)) : option JsValue :=
  match fs with
  | [] => None
  | (k', v) :: rest =>
      match field k rest with
      | Some w => Some w
      | None => if String.eqb k k' then Some v else None
      end
  end.

(** [v?.k]: [undefined] when [v] is [undefined] or [null]; the property
    otherwise.  The property names the client reads ([answer], [status],
    [detail], ...) are not built-in properties of strings, numbers,
    booleans or arrays, so on those the read gives [undefined]. *)
Definition prop (v : JsValue) (k : string) : JsValue :=
  match v with
  | JObj fs => default JUndefined (field k fs)
  | _ => JUndefined
  end.

(** [v.k]: throws a TypeError on [undefined] and [null]. *)
Definition member (v : JsValue) (k : string) : Exc JsValue :=
  if nullish v then Throw TypeError else Ok (prop v k).

(** [v === s] for a string literal [s]. *)
Definition strict_eq_str (v : JsValue) (s : jsstring) : bool :=
  match v with
  | JStr s' => bool_decide (s' = s)
  | _ => false
  end.

(** WhiteSpace and LineTerminator code points of ECMAScript (all of them
    are in the Basic Multilingual Plane, so one code unit each). *)
Definition is_white_space (c : N) : bool :=
  bool_decide (c ∈ [0x0009; 0x000A; 0x000B; 0x000C; 0x000D; 0x0020; 0x00A0;
                    0x1680; 0x2028; 0x2029; 0x202F; 0x205F; 0x3000; 0xFEFF]%N)
  || ((0x2000 <=? c)%N && (c <=? 0x200A)%N).

Fixpoint trimStart (s : jsstring) : jsstring :=
  match s with
  | [] => []
  | c :: rest => if is_white_space c then trimStart rest else s
  end.

Definition trimEnd (s : jsstring) : jsstring := reverse (trimStart (reverse s)).

(** String.prototype.trim *)
Definition trim (s : jsstring) : jsstring := trimEnd (trimStart s).

(** A string that is empty or has only white space and line terminators. *)
Definition blank (s : jsstring) : Prop :=
  Forall (λ c, is_white_space c = true) s.

#[global] Instance blank_dec s : Decision (blank s).
Proof. unfold blank. apply _. Defined.

(** What React makes of a value put between tags, [<p>{v}</p>]: strings
    and numbers are shown, booleans, [null] and [undefined] show
    nothing, an array shows its items; a plain object makes React throw
    ("Objects are not valid as a React child"), which without an error
    boundary takes the whole page down. *)
Fixpoint react_child (v : JsValue) : bool :=
  match v with
  | JObj _ => false
  | JArr items => forallb react_child items
  | _ => true
  end.

Definition ReactError : JsValue := JObj [("name", JStr (js "Error"))].

Definition jsx_child (v : JsValue) : Exc JsValue :=
  if react_child v then Ok v else Throw ReactError.

End Js.
Import Js.

(** ** services/api.js *)

Module Api.

(** A [File] of the browser's File API: [size] is an unsigned integer. *)
Record File := {
  file_name : jsstring;
  file_type : jsstring;
  file_size : N
}.

Inductive Method := GET | POST | DELETE.

Inductive Body :=
| NoBody
| JsonBody (payload : JsValue)
| FormData (file : File).

(** An axios request configuration. *)
Record Request := {
  method : Method;
  url : jsstring;
  headers : gmap string jsstring;
  data : Body
}.

(** What the interceptors touch of the browser: [localStorage] and
    [window.location.href]. *)
Record Browser := {
  localStorage : gmap string jsstring;
  location_href : jsstring
}.

(** [localStorage.getItem(k)]: [None] stands for [null]. *)
Definition getItem (b : Browser) (k : string) : option jsstring :=
  localStorage b !! k.

Definition removeItem (k : string) (b : Browser) : Browser :=
  {| localStorage := delete k (localStorage b);
     location_href := location_href b |}.

Definition set_location_href (href : jsstring) (b : Browser) : Browser :=
  {| localStorage := localStorage b; location_href := href |}.

Record HttpResponse := {
  status : N;
  response_data : JsValue
}.

(** The error a failed call rejects with.  [response] is [None]
    ([undefined] in the source) when no response was received, and for
    errors that are not axios errors. *)
Record AxiosError := {
  response : option HttpResponse
}.

Inductive Settled (A : Type) :=
| Fulfilled (value : A)
| Rejected (error : AxiosError).
Arguments Fulfilled {A} value.
Arguments Rejected {A} error.

(** [axios.create]: the instance's default headers. *)
Definition default_headers : gmap string jsstring :=
  {[ "Content-Type" := js "application/json" ]}.

Definition set_header (k : string) (v : jsstring) (config : Request) : Request :=
  {| method := method config; url := url config;
     headers := <[k := v]> (headers config); data := data config |}.

(** [api.interceptors.request.use]: the fulfilled handler. *)
Definition request_interceptor (b : Browser) (config : Request) : Request :=
  match getItem b "authToken" with
  | Some token =>
      if truthy (JStr token)
      then set_header "Authorization" (js "Bearer " ++ token) config
      else config
  | None => config
  end.

(** [error.response?.status === 401] *)
Definition status_is_401 (error : AxiosError) : bool :=
  match response error with
  | Some r => (status r =? 401)%N
  | None => false
  end.

(** [api.interceptors.response.use]: the fulfilled handler returns the
    response, the rejected handler clears the credentials on a 401 and
    rejects again with the same error. *)
Definition response_fulfilled (r : HttpResponse) : HttpResponse := r.

Definition response_rejected (error : AxiosError) (b : Browser)
  : Browser * Settled HttpResponse :=
  let b' :=
    if status_is_401 error
    then set_location_href (js "/login")
           (removeItem "userData" (removeItem "authToken" b))
    else b in
  (b', Rejected error).

(** axios' default [validateStatus]: a response settles the call as
    fulfilled exactly when its status is 2xx. *)
Definition validateStatus (s : N) : bool := (200 <=? s)%N && (s <? 300)%N.

(** How a call settles, before the response interceptors: [None] is a
    call that got no response (network error, timeout). *)
Definition settle (reply : option HttpResponse) : Settled HttpResponse :=
  match reply with
  | None => Rejected {| response := None |}
  | Some r =>
      if validateStatus (status r) then Fulfilled r
      else Rejected {| response := Some r |}
  end.

(** The response path of a call: settle, then the response interceptors. *)
Definition receive (reply : option HttpResponse) (b : Browser)
  : Browser * Settled HttpResponse :=
  match settle reply with
  | Fulfilled r => (b, Fulfilled (response_fulfilled r))
  | Rejected error => response_rejected error b
  end.

(** [return response.data] of every API function. *)
Definition response_body (s : Settled HttpResponse) : Settled JsValue :=
  match s with
  | Fulfilled r => Fulfilled (response_data r)
  | Rejected error => Rejected error
  end.

(** [api.post(url, payload)] and [api.get(url)], as configurations handed
    to the request interceptor. *)
Definition post (u : jsstring) (payload : JsValue) : Request :=
  {| method := POST; url := u; headers := default_headers;
     data := JsonBody payload |}.

Definition get (u : jsstring) : Request :=
  {| method := GET; url := u; headers := default_headers; data := NoBody |}.

(** A default parameter [options = {}]: only [undefined] is replaced. *)
Definition default_options (options : JsValue) : JsValue :=
  match options with
  | JUndefined => JObj []
  | _ => options
  end.

(** [queryAPI.askQuestion]: the request it posts. *)
Definition askQuestion (question options : JsValue) : Exc Request :=
  let options := default_options options in
  documentIds ← member options "documentIds";
  maxChunks ← member options "maxChunks";
  temperature ← member options "temperature";
  mret (post (js "/query/ask")
          (JObj [("question", question);
                 ("document_ids", documentIds);
                 ("max_chunks", jor maxChunks (JNum 5%float));
                 ("temperature", jor temperature (JNum 0.7%float))])).

(** [queryAPI.searchDocuments] *)
Definition searchDocuments (query options : JsValue) : Exc Request :=
  let options := default_options options in
  documentIds ← member options "documentIds";
  maxChunks ← member options "maxChunks";
  mret (post (js "/query/search")
          (JObj [("question", query);
                 ("document_ids", documentIds);
                 ("max_chunks", jor maxChunks (JNum 10%float))])).

(** [queryAPI.getHealthCheck], [filesAPI.getUploadStats],
    [filesAPI.getDocuments] *)
Definition getHealthCheck : Request := get (js "/query/health").
Definition getUploadStats : Request := get (js "/files/stats").
Definition getDocuments : Request := get (js "/files/documents").

(** [filesAPI.uploadPDF]: the form data holds the file under [file]. *)
Definition uploadPDF (file : File) : Request :=
  {| method := POST; url := js "/files/upload";
     headers := <["Content-Type" := js "multipart/form-data"]> default_headers;
     data := FormData file |}.

(** The names of the top-level fields of a JSON payload. *)
Definition payload_fields (r : Request) : list string :=
  match data r with
  | JsonBody (JObj fs) => fs.*1
  | _ => []
  end.

(** A top-level field of a JSON payload. *)
Definition payload_field (r : Request) (k : string) : JsValue :=
  match data r with
  | JsonBody payload => prop payload k
  | _ => JUndefined
  end.

(** The Authorization header the request interceptor attaches: none
    without a stored, non-empty token. *)
Definition bearer (b : Browser) : option jsstring :=
  match getItem b "authToken" with
  | Some token => if truthy (JStr token) then Some (js "Bearer " ++ token) else None
  | None => None
  end.

(** A request that uploads the file [f]: a multipart POST to
    /files/upload whose form data holds [f]. *)
Abbreviation is_upload_of req f :=
  (method req = POST
   ∧ url req = js "/files/upload"
   ∧ data req = FormData f
   ∧ headers req !! "Content-Type" = Some (js "multipart/form-data")).

(** An API function from the reply on: the response interceptors, then
    [return response.data]. *)
Definition api_settled (reply : option HttpResponse) (b : Browser)
  : Browser * Settled JsValue :=
  ((receive reply b).1, response_body (receive reply b).2).

End Api.

(** ** pages/AskPage.js: the chat page *)

Module AskPage.
Import Api.

Record Settings := {
  maxChunks : float;
  temperature : float
}.

(** The [useState] cells of the component.  A message is the object the
    handlers build. *)
Record State := {
  messages : list JsValue;
  currentQuestion : jsstring;
  loading : bool;
  error : JsValue;
  settings : Settings;
  showSettings : bool
}.

Definition initial : State :=
  {| messages := []; currentQuestion := []; loading := false;
     error := JStr []; showSettings := false;
     settings := {| maxChunks := 5%float; temperature := 0.7%float |} |}.

Definition userMessage (question timestamp : jsstring) : JsValue :=
  JObj [("type", JStr (js "user"));
        ("content", JStr question);
        ("timestamp", JStr timestamp)].

(** The content starts with the emoji U+1F914, two code units. *)
Definition thinkingMessage (timestamp : jsstring) : JsValue :=
  JObj [("type", JStr (js "assistant"));
        ("content",
         JStr ([0xD83E; 0xDD14]%N ++ js " Searching through your documents..."));
        ("timestamp", JStr timestamp);
        ("isThinking", JBool true)].

Definition assistantMessage (answer sources model_info processing_time_ms : JsValue)
    (timestamp : jsstring) : JsValue :=
  JObj [("type", JStr (js "assistant"));
        ("content", answer);
        ("sources", sources);
        ("modelInfo", model_info);
        ("processingTime", processing_time_ms);
        ("timestamp", JStr timestamp)].

Definition errorMessage (content : JsValue) (timestamp : jsstring) : JsValue :=
  JObj [("type", JStr (js "error"));
        ("content", content);
        ("timestamp", JStr timestamp)].

(** [prev.filter(msg => !msg.isThinking)] *)
Definition withoutThinking (prev : list JsValue) : list JsValue :=
  filter (λ msg, truthy (prop msg "isThinking") = false) prev.

(** The options object of the call in [handleSubmit]. *)
Definition ask_options (s : Settings) : JsValue :=
  JObj [("maxChunks", JNum (maxChunks s));
        ("temperature", JNum (temperature s))].

(** [handleSubmit] up to its [await]: the new state and the call made, if
    any.  [t_user] and [t_thinking] are the two readings of the clock
    ([new Date().toISOString()]). *)
Definition handleSubmit (t_user t_thinking : jsstring) (st : State)
  : State * option (Exc Request) :=
  if negb (truthy (JStr (trim (currentQuestion st)))) || loading st
  then (st, None)
  else
    let question := trim (currentQuestion st) in
    ({| currentQuestion := [];
        error := JStr [];
        messages :=
          (messages st ++ [userMessage question t_user])
            ++ [thinkingMessage t_thinking];
        loading := true;
        settings := settings st;
        showSettings := showSettings st |},
     Some (askQuestion (JStr question) (ask_options (settings st)))).

(** [error.response?.data?.detail] *)
Definition error_detail (e : AxiosError) : JsValue :=
  match response e with
  | Some r => prop (response_data r) "detail"
  | None => JUndefined
  end.

(** [handleSubmit] after the [await]: the call settled with the body of
    the response, or was rejected.  The fulfilled branch reads the
    response with plain member accesses, which throw on [undefined] and
    [null]. *)
Definition handleSubmit_settled (timestamp : jsstring)
    (outcome : Settled JsValue) (st : State) : Exc State :=
  match outcome with
  | Fulfilled resp =>
      answer ← member resp "answer";
      sources ← member resp "sources";
      model_info ← member resp "model_info";
      processing_time_ms ← member resp "processing_time_ms";
      mret {| messages :=
                withoutThinking (messages st)
                  ++ [assistantMessage answer sources model_info
                        processing_time_ms timestamp];
              loading := false;
              currentQuestion := currentQuestion st;
              error := error st;
              settings := settings st;
              showSettings := showSettings st |}
  | Rejected e =>
      mret {| error := jor (error_detail e) (JStr (js "Failed to get answer"));
              messages :=
                withoutThinking (messages st)
                  ++ [errorMessage
                        (jor (error_detail e)
                           (JStr (js "Sorry, I encountered an error while processing your question.")))
                        timestamp];
              loading := false;
              currentQuestion := currentQuestion st;
              settings := settings st;
              showSettings := showSettings st |}
  end.

(** What [renderMessage] puts on the screen for a message: the kind of
    bubble and the properties of the message its markup reads. *)
Inductive Bubble :=
| SystemBubble (content : JsValue)
| UserBubble (content timestamp : JsValue)
| AssistantBubble (content sources timestamp processingTime : JsValue)
| ErrorBubble (content timestamp : JsValue)
| NoBubble.

Definition renderMessage (message : JsValue) : Bubble :=
  let type := prop message "type" in
  if strict_eq_str type (js "system") then
    SystemBubble (prop message "content")
  else if strict_eq_str type (js "user") then
    UserBubble (prop message "content") (prop message "timestamp")
  else if strict_eq_str type (js "assistant") then
    AssistantBubble (prop message "content") (prop message "sources")
      (prop message "timestamp") (prop message "processingTime")
  else if strict_eq_str type (js "error") then
    ErrorBubble (prop message "content") (prop message "timestamp")
  else NoBubble.

(** The red banner under the input, [{error && (<div>{error}</div>)}]:
    what it shows, if it is there; rendering it throws when [error] is
    not something React can show. *)
Definition error_banner (st : State) : Exc (option JsValue) :=
  if truthy (error st) then shown ← jsx_child (error st); mret (Some shown)
  else mret None.

(** The paragraph [<p>{message.content}</p>] that each of the four
    bubbles has. *)
Definition bubble_text (b : Bubble) : Exc JsValue :=
  match b with
  | SystemBubble c | UserBubble c _ | AssistantBubble c _ _ _ | ErrorBubble c _ =>
      jsx_child c
  | NoBubble => Ok JUndefined
  end.

(** The message of the mount effect. *)
Definition welcomeMessage (timestamp : jsstring) : JsValue :=
  JObj [("type", JStr (js "system"));
        ("content",
         JStr (js "Welcome! Ask me anything about your uploaded documents. I'll search through your knowledge base and provide answers with source references."));
        ("timestamp", JStr timestamp)].

Definition clearedMessage (timestamp : jsstring) : JsValue :=
  JObj [("type", JStr (js "system"));
        ("content",
         JStr (js "Conversation cleared. Ask me anything about your uploaded documents!"));
        ("timestamp", JStr timestamp)].

Definition setMessages (ms : list JsValue) (st : State) : State :=
  {| messages := ms; currentQuestion := currentQuestion st;
     loading := loading st; error := error st; settings := settings st;
     showSettings := showSettings st |}.

(** The effect that runs once after mounting. *)
Definition mount (timestamp : jsstring) (st : State) : State :=
  setMessages [welcomeMessage timestamp] st.

Definition clearConversation (timestamp : jsstring) (st : State) : State :=
  setMessages [clearedMessage timestamp] st.

(** [onChange] of the input. *)
Definition setCurrentQuestion (q : jsstring) (st : State) : State :=
  {| messages := messages st; currentQuestion := q;
     loading := loading st; error := error st; settings := settings st;
     showSettings := showSettings st |}.

(** [onChange] of the two selects; [parsed] is the result of [parseInt]
    resp. [parseFloat] on the chosen value. *)
Definition selectMaxChunks (parsed : float) (st : State) : State :=
  {| messages := messages st; currentQuestion := currentQuestion st;
     loading := loading st; error := error st;
     settings := {| maxChunks := parsed; temperature := temperature (settings st) |};
     showSettings := showSettings st |}.

Definition selectTemperature (parsed : float) (st : State) : State :=
  {| messages := messages st; currentQuestion := currentQuestion st;
     loading := loading st; error := error st;
     settings := {| maxChunks := maxChunks (settings st); temperature := parsed |};
     showSettings := showSettings st |}.

Definition toggleSettings (st : State) : State :=
  {| messages := messages st; currentQuestion := currentQuestion st;
     loading := loading st; error := error st; settings := settings st;
     showSettings := negb (showSettings st) |}.

(** [disabled] of the submit button and of the input. *)
Definition submit_disabled (st : State) : bool :=
  loading st || negb (truthy (JStr (trim (currentQuestion st)))).

Definition input_disabled (st : State) : bool := loading st.

(** What can happen to the page: the events of the user and the
    settling of a call.  A settling is allowed at any time, which covers
    the settlings of the calls actually made. *)
Inductive step : State → State → Prop :=
| step_mount t st : step st (mount t st)
| step_type q st : step st (setCurrentQuestion q st)
| step_submit t_user t_thinking st :
    step st (handleSubmit t_user t_thinking st).1
| step_settled t outcome st st' :
    handleSubmit_settled t outcome st = Ok st' → step st st'
| step_clear t st : step st (clearConversation t st)
| step_maxChunks x st : step st (selectMaxChunks x st)
| step_temperature x st : step st (selectTemperature x st)
| step_toggle st : step st (toggleSettings st).

Definition reachable (st : State) : Prop := rtc step initial st.

(** A message in the thinking state, and a message [renderMessage] has a
    bubble for. *)
Definition thinking (m : JsValue) : Prop := truthy (prop m "isThinking") = true.

Definition rendered (m : JsValue) : Prop := renderMessage m ≠ NoBubble.

End AskPage.

(** ** The dashboard page *)

Module DashboardPage.
Import Api.

Record State := {
  stats : JsValue;
  recentDocuments : JsValue;
  loading : bool;
  healthStatus : JsValue
}.

Definition initial : State :=
  {| stats := JNull; recentDocuments := JArr []; loading := true;
     healthStatus := JNull |}.

(** [v.slice(0, 5)]: arrays and strings have [slice]; on anything else
    the call throws. *)
Definition slice_0_5 (v : JsValue) : Exc JsValue :=
  match v with
  | JArr items => Ok (JArr (take 5 items))
  | JStr s => Ok (JStr (take 5 s))
  | _ => Throw TypeError
  end.

(** [queryAPI.getHealthCheck().catch(() => null)] *)
Definition health_or_null (h : Settled JsValue) : JsValue :=
  match h with
  | Fulfilled v => v
  | Rejected _ => JNull
  end.

(** The body of the [try] of [loadDashboardData] after
    [Promise.allSettled]: the three updates in order; a throw leaves the
    later ones undone. *)
Definition load_try (statsResponse documentsResponse healthResponse : Settled JsValue)
    (st : State) : State * option JsValue :=
  let st1 :=
    match statsResponse with
    | Fulfilled v =>
        {| stats := v; recentDocuments := recentDocuments st;
           loading := loading st; healthStatus := healthStatus st |}
    | Rejected _ => st
    end in
  let docs :=
    match documentsResponse with
    | Fulfilled v => ds ← member v "documents"; d5 ← slice_0_5 ds; mret (Some d5)
    | Rejected _ => Ok None
    end in
  match docs with
  | Throw e => (st1, Some e)
  | Ok d =>
      let st2 :=
        match d with
        | Some d5 =>
            {| stats := stats st1; recentDocuments := d5;
               loading := loading st1; healthStatus := healthStatus st1 |}
        | None => st1
        end in
      let h := health_or_null healthResponse in
      (if truthy h
       then {| stats := stats st2; recentDocuments := recentDocuments st2;
               loading := loading st2; healthStatus := h |}
       else st2, None)
  end.

(** The documents step of the [try]: what it reads and when it throws. *)
Definition documents_step (d : Settled JsValue) : Exc (option JsValue) :=
  match d with
  | Fulfilled v => ds ← member v "documents"; d5 ← slice_0_5 ds; mret (Some d5)
  | Rejected _ => Ok None
  end.

(** [loadDashboardData] once the three calls have settled: the [try],
    then [finally { setLoading(false) }]; the [catch] only logs. *)
Definition loadDashboardData (statsResponse documentsResponse healthResponse : Settled JsValue)
    (st : State) : State :=
  let st' := (load_try statsResponse documentsResponse healthResponse st).1 in
  {| stats := stats st'; recentDocuments := recentDocuments st';
     loading := false; healthStatus := healthStatus st' |}.

(** The four cards of the stats grid: the expressions the markup
    interpolates. *)
Record StatsGrid := {
  card_total_documents : JsValue;
  card_storage_used_mb : JsValue;
  card_text_chunks : JsValue;
  card_processed : JsValue
}.

(** While [loading] the component returns the spinner; after that the
    grid is under [{stats && (...)}]. *)
Definition stats_grid (st : State) : option StatsGrid :=
  if loading st then None
  else if truthy (stats st) then
    Some {| card_total_documents := prop (stats st) "total_documents";
            card_storage_used_mb := prop (stats st) "total_file_size_mb";
            card_text_chunks := prop (stats st) "total_chunks";
            card_processed :=
              jor (prop (prop (stats st) "documents_by_status") "completed")
                  (JNum 0%float) |}
  else None.

Inductive Light := Green | Red.

Definition light (b : bool) : Light := if b then Green else Red.

Record SystemStatus := {
  light_embedding_service : Light;
  light_llm_service : Light;
  light_vector_database : Light
}.

Section SystemStatus.

(** ToNumber on strings, arrays and objects (ToPrimitive, then the
    numeric-string grammar) is left to the JavaScript engine. *)
Variable ToNumber_other : JsValue → float.

Definition ToNumber (v : JsValue) : float :=
  match v with
  | JUndefined => nan
  | JNull => 0%float
  | JBool b => if b then 1%float else 0%float
  | JNum x => x
  | _ => ToNumber_other v
  end.

(** [v >= 0] *)
Definition ge_zero (v : JsValue) : bool := PrimFloat.leb 0%float (ToNumber v).

(** The panel, under [{healthStatus && (...)}] once the page is not
    [loading]. *)
Definition system_status (st : State) : option SystemStatus :=
  let h := healthStatus st in
  if loading st then None
  else if truthy h then
    Some {| light_embedding_service :=
              light (truthy (prop (prop h "embedding_service") "working"));
            light_llm_service :=
              light (truthy (prop (prop h "llm_service") "available"));
            light_vector_database :=
              light (ge_zero (prop (prop h "vector_store") "total_chunks")) |}
  else None.

End SystemStatus.

End DashboardPage.

(** ** pages/UploadPage.js *)

Module UploadPage.
Import Api.

Record State := {
  documents : JsValue;
  uploading : bool;
  uploadProgress : N;
  dragOver : bool;
  loading : bool;
  error : JsValue;
  success : JsValue
}.

Definition setError (e : JsValue) (st : State) : State :=
  {| documents := documents st; uploading := uploading st;
     uploadProgress := uploadProgress st; dragOver := dragOver st;
     loading := loading st; error := e; success := success st |}.

Definition setDragOver (d : bool) (st : State) : State :=
  {| documents := documents st; uploading := uploading st;
     uploadProgress := uploadProgress st; dragOver := d;
     loading := loading st; error := error st; success := success st |}.

(** [50 * 1024 * 1024] *)
Definition MAX_SIZE : N := 50 * 1024 * 1024.

(** [handleFileUpload] up to its [await]: the new state and the upload
    request, if one is made.  [None] is a missing file ([!file]). *)
Definition handleFileUpload (file : option File) (st : State)
  : State * option Request :=
  match file with
  | None => (st, None)
  | Some f =>
      if negb (bool_decide (file_type f = js "application/pdf")) then
        (setError (JStr (js "Please select a PDF file")) st, None)
      else if (MAX_SIZE <? file_size f)%N then
        (setError (JStr (js "File size must be less than 50MB")) st, None)
      else
        ({| uploading := true;
            error := JStr [];
            success := JStr [];
            uploadProgress := 0;
            documents := documents st; dragOver := dragOver st;
            loading := loading st |},
         Some (uploadPDF f))
  end.

(** [handleFileSelect]: the first file of the input, if any. *)
Definition handleFileSelect (files : list File) (st : State)
  : State * option Request :=
  match files with
  | f :: _ => handleFileUpload (Some f) st
  | [] => (st, None)
  end.

(** [handleDrop]: the first PDF among the dropped files. *)
Definition handleDrop (files : list File) (st : State)
  : State * option Request :=
  let st := setDragOver false st in
  match List.find (λ f, bool_decide (file_type f = js "application/pdf")) files with
  | Some pdfFile => handleFileUpload (Some pdfFile) st
  | None => (setError (JStr (js "Please drop a PDF file")) st, None)
  end.

(** Two states that differ at most in the error cell. *)
Abbreviation same_but_error st st' :=
  (documents st' = documents st
   ∧ uploading st' = uploading st
   ∧ uploadProgress st' = uploadProgress st
   ∧ dragOver st' = dragOver st
   ∧ loading st' = loading st
   ∧ success st' = success st).

(** The file input is in the branch of [uploading ? ... : ...] that is
    rendered when no upload runs (and has [disabled={uploading}]); the
    drop handlers sit on the surrounding box, which is always there. *)
Definition file_input_shown (st : State) : bool := negb (uploading st).

Definition setLoading (l : bool) (st : State) : State :=
  {| documents := documents st; uploading := uploading st;
     uploadProgress := uploadProgress st; dragOver := dragOver st;
     loading := l; error := error st; success := success st |}.

(** [handleDragOver], [handleDragLeave] *)
Definition handleDragOver (st : State) : State := setDragOver true st.
Definition handleDragLeave (st : State) : State := setDragOver false st.

(** [loadDocuments] up to its [await]. *)
Definition loadDocuments (st : State) : State * Request :=
  (setLoading true st, getDocuments).

(** [loadDocuments] after the [await]: a body without [documents] is
    not an error, a [null] body is (the member access throws). *)
Definition loadDocuments_settled (outcome : Settled JsValue) (st : State) : State :=
  let failed := setError (JStr (js "Failed to load documents")) st in
  setLoading false
    match outcome with
    | Fulfilled resp =>
        match member resp "documents" with
        | Ok ds =>
            {| documents := ds; uploading := uploading st;
               uploadProgress := uploadProgress st; dragOver := dragOver st;
               loading := loading st; error := error st; success := success st |}
        | Throw _ => failed
        end
    | Rejected _ => failed
    end.

Section UploadSettled.

(** ToString of the engine, as used by template literals. *)
Variable ToString : JsValue → jsstring.

(** The success text; the code unit 34 is the double quote. *)
Definition success_text (filename chunks_created : JsValue) : jsstring :=
  js "File " ++ [34%N] ++ ToString filename ++ [34%N]
    ++ js " uploaded successfully! Generated " ++ ToString chunks_created
    ++ js " text chunks.".

(** [handleFileUpload] after the [await].  The flag tells whether the
    one-second timer was set.  A throw while reading the response lands
    in the [catch] with an error that has no [response]. *)
Definition handleFileUpload_settled (outcome : Settled JsValue) (st : State)
  : State * bool :=
  let caught (detail : JsValue) :=
    {| error := jor detail (JStr (js "Upload failed"));
       uploadProgress := 0;
       uploading := false;
       documents := documents st; dragOver := dragOver st;
       loading := loading st; success := success st |} in
  match outcome with
  | Fulfilled resp =>
      match (filename ← member resp "filename";
             chunks ← member resp "chunks_created";
             mret (success_text filename chunks)) with
      | Ok text =>
          ({| success := JStr text;
              uploadProgress := 100;
              uploading := false;
              documents := documents st; dragOver := dragOver st;
              loading := loading st; error := error st |}, true)
      | Throw _ => (caught JUndefined, false)
      end
  | Rejected e =>
      (caught match response e with
              | Some r => prop (response_data r) "detail"
              | None => JUndefined
              end, false)
  end.

End UploadSettled.

(** The timer of a successful upload: reload the list, reset the bar. *)
Definition upload_timer (st : State) : State * Request :=
  let (st1, req) := loadDocuments st in
  ({| uploadProgress := 0;
      documents := documents st1; uploading := uploading st1;
      dragOver := dragOver st1; loading := loading st1;
      error := error st1; success := success st1 |}, req).

End UploadPage.

(** ** The early single-file pages (ask and upload) *)

Module EarlyAskPage.
Import Api.

Record State := {
  question : jsstring;
  answer : JsValue;
  references : JsValue
}.

Definition initial : State :=
  {| question := []; answer := JStr []; references := JArr [] |}.

(** The call of [handleAsk]: plain [axios.post] with the payload
    [{ question }] and a literal Authorization header. *)
Definition handleAsk (st : State) : Request :=
  {| method := POST; url := js "/query/ask";
     headers := {[ "Authorization" := js "Bearer <JWT>" ]};
     data := JsonBody (JObj [("question", JStr (question st))]) |}.

(** The [try] of [handleAsk] after the [await].  Both reads are of
    [res.data], so only the first can throw, before any setter ran. *)
Definition handleAsk_try (res : HttpResponse) (st : State) : Exc State :=
  a ← member (response_data res) "answer";
  r ← member (response_data res) "references";
  mret {| question := question st; answer := a;
          references := jor r (JArr []) |}.

Definition handleAsk_catch (st : State) : State :=
  {| question := question st;
     answer := JStr (js "Error getting answer.");
     references := JArr [] |}.

(** [handleAsk] after the [await]. *)
Definition handleAsk_settled (outcome : Settled HttpResponse) (st : State) : State :=
  match outcome with
  | Fulfilled res =>
      match handleAsk_try res st with
      | Ok st' => st'
      | Throw _ => handleAsk_catch st
      end
  | Rejected _ => handleAsk_catch st
  end.

End EarlyAskPage.

Module EarlyUploadPage.
Import Api.

Record State := {
  file : option File;
  files : list jsstring;
  message : jsstring
}.

(** The call of [handleUpload]: the selected file, whatever it is, with a
    literal Authorization header. *)
Definition handleUpload (st : State) : option Request :=
  match file st with
  | None => None
  | Some f =>
      Some {| method := POST; url := js "/files/upload";
              headers := {[ "Authorization" := js "Bearer <JWT>" ]};
              data := FormData f |}
  end.

End EarlyUploadPage.

(** ** App.js: the routes and their guards *)

Module App.

Inductive Page :=
| Login | Register | Dashboard | Upload | Ask | NotFound.

(** The rows of the route table: the five paths, [/] and [*]. *)
Inductive Route :=
| path_login | path_register | path_dashboard | path_upload | path_ask
| path_root | path_any.

(** [useAuth()] *)
Record Auth := {
  isAuthenticated : bool;
  loading : bool
}.

(** What a route element renders to: the spinner, a page (inside the
    layout or not), or a [Navigate] to the route its [to] names. *)
Inductive Element :=
| Spinner
| Show (page : Page) (layout : bool)
| Navigate (to : Route).

Definition ProtectedRoute (auth : Auth) (children : Element) : Element :=
  if loading auth then Spinner
  else if isAuthenticated auth then children else Navigate path_login.

Definition PublicRoute (auth : Auth) (children : Element) : Element :=
  if loading auth then Spinner
  else if negb (isAuthenticated auth) then children else Navigate path_dashboard.

(** The [element] of each route. *)
Definition element (auth : Auth) (r : Route) : Element :=
  match r with
  | path_login => PublicRoute auth (Show Login false)
  | path_register => PublicRoute auth (Show Register false)
  | path_dashboard => ProtectedRoute auth (Show Dashboard true)
  | path_upload => ProtectedRoute auth (Show Upload true)
  | path_ask => ProtectedRoute auth (Show Ask true)
  | path_root => Navigate path_dashboard
  | path_any => Show NotFound false
  end.

(** Following the [Navigate]s from a route, at most [fuel] of them:
    what ends up on the screen, [None] when the fuel runs out. *)
Fixpoint screen (fuel : nat) (auth : Auth) (r : Route) : option Element :=
  match element auth r with
  | Navigate to =>
      match fuel with
      | O => None
      | S fuel' => screen fuel' auth to
      end
  | e => Some e
  end.

Definition protected (p : Page) : bool :=
  match p with
  | Dashboard | Upload | Ask => true
  | _ => false
  end.

Definition public_only (p : Page) : bool :=
  match p with
  | Login | Register => true
  | _ => false
  end.

End App.

(** ** The vector index *)

Module VectorIndex.

Section Index.

(** The embedding vectors and the similarity metric of the configured
    embedding provider. *)
Variable Vec : Type.
Variable similarity : Vec → Vec → Q.

(** Modelled from the spec: the backend's vector store is not among the
    sources; this is the Chunk record of the data model, without its id,
    which is the key of the index. *)
Record Chunk := {
  document_id : N;
  owner_id : N;
  sequence_index : N;
  text : jsstring;
  char_start : N;
  char_end : N;
  embedding_vector : Vec
}.

(** Modelled from the spec: the index, chunk metadata and vector by
    chunk id. *)
Local Abbreviation Index := (gmap N Chunk).

(** Modelled from the spec: [upsert(chunk_id, vector, metadata)],
    idempotent by chunk id. *)
Definition upsert (chunk_id : N) (c : Chunk) (idx : Index) : Index :=
  <[chunk_id := c]> idx.

(** Modelled from the spec: [delete_by_document(document_id)] removes
    all chunks of a document. *)
Definition delete_by_document (d : N) (idx : Index) : Index :=
  filter (λ e, document_id e.2 ≠ d) idx.

(** Modelled from the spec: the chunks of an owner, and the documents an
    owner has chunks of. *)
Definition owned_by (owner : N) (idx : Index) : list (N * Chunk) :=
  filter (λ e, owner_id e.2 = owner) (map_to_list idx).

Definition documents_of (owner : N) (idx : Index) : list N :=
  (λ e, document_id e.2) <$> owned_by owner idx.

(** Modelled from the spec: the supplied document ids are validated
    against the caller's own documents before they are used as a
    filter. *)
Definition validate_documents (owner : N) (document_ids : list N) (idx : Index)
  : list N :=
  filter (λ d, d ∈ documents_of owner idx) document_ids.

(** Modelled from the spec: results are ranked by descending similarity,
    ties broken by ascending chunk id. *)
Definition ranks_before (a b : N * Q) : bool :=
  negb (Qle_bool a.2 b.2) || (Qeq_bool a.2 b.2 && (a.1 <=? b.1)%N).

Definition outranks (a b : N * Q) : Prop := ranks_before a b = true.

#[global] Instance outranks_dec : RelDecision outranks.
Proof. intros a b. unfold outranks. apply _. Defined.

(** Modelled from the spec: [query(vector, owner_id, document_ids?, k)],
    the [k] best (chunk id, score) pairs among the caller's chunks,
    fewer when fewer candidates exist. *)
Definition query (v : Vec) (owner : N) (document_ids : option (list N))
    (k : nat) (idx : Index) : list (N * Q) :=
  let owned := owned_by owner idx in
  let candidates :=
    match document_ids with
    | None => owned
    | Some ds =>
        let valid := validate_documents owner ds idx in
        filter (λ e, document_id e.2 ∈ valid) owned
    end in
  take k
    (merge_sort outranks
       ((λ e, (e.1, similarity v (embedding_vector e.2))) <$> candidates)).

End Index.

Arguments document_id {Vec} _.
Arguments owner_id {Vec} _.
Arguments embedding_vector {Vec} _.

End VectorIndex.

(** ** Concrete states and inputs used by the examples *)

Definition st_blank_question : AskPage.State :=
  {| AskPage.messages := []; AskPage.currentQuestion := js "   ";
     AskPage.loading := false; AskPage.error := JStr [];
     AskPage.showSettings := false;
     AskPage.settings := AskPage.settings AskPage.initial |}.

Definition st_question : AskPage.State :=
  {| AskPage.messages := []; AskPage.currentQuestion := js " What is the sprint goal? ";
     AskPage.loading := false; AskPage.error := JStr [];
     AskPage.showSettings := false;
     AskPage.settings := AskPage.settings AskPage.initial |}.


Definition browser_logged_in : Api.Browser :=
  {| Api.localStorage :=
       {[ "authToken" := js "abc.def.ghi"; "userData" := js "{}" ]};
     Api.location_href := js "/ask" |}.

Definition options_zero : JsValue :=
  JObj [("maxChunks", JNum 0%float); ("temperature", JNum 0%float);
        ("owner_id", JStr (js "someone-else"))].

Definition browser_with_other_keys : Api.Browser :=
  {| Api.localStorage :=
       {[ "authToken" := js "abc.def.ghi"; "userData" := js "{}";
          "theme" := js "dark" ]};
     Api.location_href := js "/dashboard" |}.

Definition response_401 : Api.HttpResponse :=
  {| Api.status := 401;
     Api.response_data := JObj [("detail", JStr (js "Could not validate credentials"))] |}.

Definition response_503 : Api.HttpResponse :=
  {| Api.status := 503;
     Api.response_data := JObj [("detail", JStr (js "LLM service unavailable"))] |}.

Definition upload_state : UploadPage.State :=
  {| UploadPage.documents := JArr []; UploadPage.uploading := false;
     UploadPage.uploadProgress := 0; UploadPage.dragOver := false;
     UploadPage.loading := false; UploadPage.error := JStr [];
     UploadPage.success := JStr [] |}.

Definition file_pdf_at_limit : Api.File :=
  {| Api.file_name := js "report.pdf"; Api.file_type := js "application/pdf";
     Api.file_size := 52428800 |}.

Definition file_pdf_too_large : Api.File :=
  {| Api.file_name := js "scan.pdf"; Api.file_type := js "application/pdf";
     Api.file_size := 52428801 |}.

Definition file_text : Api.File :=
  {| Api.file_name := js "notes.txt"; Api.file_type := js "text/plain";
     Api.file_size := 12 |}.

(** The chat after a question was submitted: the user's message and the
    thinking placeholder, a request in flight. *)
Definition st_waiting : AskPage.State :=
  (AskPage.handleSubmit (js "2024-05-01T10:00:00.000Z")
     (js "2024-05-01T10:00:00.001Z") st_question).1.

(** An answer in the shape of the AnswerResult record of the data model,
    with the text under [answer_text]. *)
Definition answer_result : JsValue :=
  JObj [("answer_text", JStr (js "The sprint goal is X."));
        ("sources",
         JArr [JObj [("chunk_id", JNum 7%float); ("document_id", JNum 1%float);
                     ("similarity_score", JNum 0.9%float);
                     ("snippet", JStr (js "The sprint goal is X."))]]);
        ("model_info", JObj [("model", JStr (js "llama2"))]);
        ("processing_time_ms", JNum 1234%float)].

(** The same answer with the text under [answer]. *)
Definition answer_response : JsValue :=
  JObj [("answer", JStr (js "The sprint goal is X."));
        ("sources", prop answer_result "sources");
        ("model_info", prop answer_result "model_info");
        ("processing_time_ms", JNum 1234%float);
        ("owner_id", JNum 1%float)].

(** Statistics in the shape of the stats record of the interface
    description. *)
Definition stats_record : JsValue :=
  JObj [("total_documents", JNum 3%float);
        ("total_chunks", JNum 12%float);
        ("total_bytes", JNum 2048%float);
        ("counts_by_status", JObj [("completed", JNum 3%float)])].

(** Statistics under the names the dashboard reads. *)
Definition stats_response : JsValue :=
  JObj [("total_documents", JNum 3%float);
        ("total_chunks", JNum 12%float);
        ("total_file_size_mb", JNum 0.002%float);
        ("documents_by_status", JObj [("completed", JNum 3%float)])].

(** Health in the shape of the health record of the interface
    description, everything reachable. *)
Definition health_record : JsValue :=
  JObj [("embedding_service", JBool true);
        ("generation_service", JBool true);
        ("vector_index", JBool true);
        ("chunk_count", JNum 12%float)].

(** Health under the names the dashboard reads. *)
Definition health_response : JsValue :=
  JObj [("embedding_service", JObj [("working", JBool true)]);
        ("llm_service", JObj [("available", JBool true)]);
        ("vector_store", JObj [("total_chunks", JNum 12%float)])].

Definition documents_response : JsValue := JObj [("documents", JArr [])].

(** A stand-in for the engine's ToNumber on non-primitive values. *)
Definition ToNumber_nan (v : JsValue) : float := nan.

(** Two owners with overlapping content: owner 2 has a copy of owner 1's
    chunk and a chunk that scores higher for the probe vector.  Vectors
    are pairs of rationals, the similarity is the inner product. *)
Definition inner_product (a b : Q * Q) : Q := (a.1 * b.1 + a.2 * b.2)%Q.

Definition chunk_of (doc owner : N) (vec : Q * Q) : VectorIndex.Chunk (Q * Q) :=
  {| VectorIndex.document_id := doc; VectorIndex.owner_id := owner;
     VectorIndex.sequence_index := 0; VectorIndex.text := js "The sprint goal is X.";
     VectorIndex.char_start := 0; VectorIndex.char_end := 21;
     VectorIndex.embedding_vector := vec |}.

Definition two_owner_index : gmap N (VectorIndex.Chunk (Q * Q)) :=
  VectorIndex.upsert _ 3 (chunk_of 21 2 (3, 0)%Q)
    (VectorIndex.upsert _ 2 (chunk_of 20 2 (1, 0)%Q)
       (VectorIndex.upsert _ 1 (chunk_of 10 1 (1, 0)%Q) ∅)).

(** A request that already has an Authorization header. *)
Definition request_with_header : Api.Request :=
  Api.set_header "Authorization" (js "Bearer stale") Api.getUploadStats.

Definition browser_logged_out : Api.Browser :=
  {| Api.localStorage := {[ "theme" := js "dark" ]};
     Api.location_href := js "/login" |}.

Definition response_200 : Api.HttpResponse :=
  {| Api.status := 200; Api.response_data := answer_response |}.

Definition file_pdf_small : Api.File :=
  {| Api.file_name := js "minutes.pdf"; Api.file_type := js "application/pdf";
     Api.file_size := 2048 |}.

Definition upload_response : JsValue :=
  JObj [("filename", JStr (js "minutes.pdf")); ("chunks_created", JNum 4%float)].

(** A stand-in for the engine's ToString. *)
Definition ToString_empty (v : JsValue) : jsstring := [].

Definition seven_documents : JsValue :=
  JObj [("documents",
         JArr ((λ n, JObj [("id", JNum n)])
                 <$> [1; 2; 3; 4; 5; 6; 7]%float))].

Definition documents_without_list : JsValue := JObj [("total", JNum 0%float)].

Definition dashboard_with_health (h : JsValue) : DashboardPage.State :=
  {| DashboardPage.stats := JNull; DashboardPage.recentDocuments := JArr [];
     DashboardPage.loading := false; DashboardPage.healthStatus := h |}.

Definition health_empty_index : JsValue :=
  JObj [("vector_store", JObj [("total_chunks", JNum 0%float)])].

Definition health_without_store : JsValue := JObj [("status", JStr (js "ok"))].

(** A rejection whose body is a validation error: the detail is a list
    of objects. *)
Definition response_422 : Api.HttpResponse :=
  {| Api.status := 422;
     Api.response_data :=
       JObj [("detail",
              JArr [JObj [("loc", JArr [JStr (js "body"); JStr (js "max_chunks")]);
                          ("msg", JStr (js "ensure this value is less than or equal to 20"))]])] |}.


(** * Properties *)

(** ** Strings and values *)

Section Trim.

Lemma trimStart_nil (s : jsstring) : trimStart s = [] ↔ blank s.
Proof.
  unfold blank. induction s as [|c s IH]; simpl.
  - split; [constructor | done].
  - destruct (is_white_space c) eqn:Hc.
    + rewrite IH. split.
      * intros H. by constructor.
      * by inversion 1.
    + split; [done |]. inversion 1; congruence.
Qed.

(** What [trimStart] leaves does not start with white space. *)
Lemma trimStart_head (s : jsstring) c rest :
  trimStart s = c :: rest → is_white_space c = false.
Proof.
  induction s as [|d s IH]; simpl; [done |].
  destruct (is_white_space d) eqn:Hd; [done |].
  intros [= <- <-]. done.
Qed.

Lemma trim_nil (s : jsstring) : trim s = [] ↔ blank s.
Proof.
  unfold trim, trimEnd. rewrite <- trimStart_nil. split.
  - intros H. apply (f_equal reverse) in H.
    rewrite reverse_involutive in H. change (reverse []) with (@nil N) in H.
    apply trimStart_nil in H. unfold blank in H.
    destruct (trimStart s) as [|c rest] eqn:Hs; [done |].
    apply trimStart_head in Hs.
    rewrite Forall_forall in H. specialize (H c).
    rewrite Hs in H. discriminate H. apply elem_of_reverse. left.
  - intros ->. done.
Qed.

Lemma truthy_trim (s : jsstring) :
  truthy (JStr (trim s)) = negb (bool_decide (blank s)).
Proof.
  simpl. f_equal. apply bool_decide_ext, trim_nil.
Qed.

End Trim.

(** ** C5: the guard of handleSubmit *)

(** C5.  When the question is empty or has only white space, or a request
    is in flight ([loading]), [handleSubmit] makes no call and leaves the
    whole state, the messages included, as it was; and whenever it makes
    a call, the trimmed question is not empty, no request was in flight,
    and the call is [askQuestion] on the trimmed question. *)
Theorem C5_handleSubmit_guard (t_user t_thinking : jsstring) (st : AskPage.State) :
  (blank (AskPage.currentQuestion st) ∨ AskPage.loading st = true →
   AskPage.handleSubmit t_user t_thinking st = (st, None))
  ∧ (∀ st' call,
       AskPage.handleSubmit t_user t_thinking st = (st', Some call) →
       trim (AskPage.currentQuestion st) ≠ []
       ∧ AskPage.loading st = false
       ∧ call = Api.askQuestion (JStr (trim (AskPage.currentQuestion st)))
                  (AskPage.ask_options (AskPage.settings st))).
Proof.
  unfold AskPage.handleSubmit. rewrite truthy_trim, negb_involutive.
  split.
  - intros [Hb | Hl].
    + by case_bool_decide.
    + rewrite Hl, orb_true_r. done.
  - intros st' call.
    case_bool_decide as Hb; simpl; [done |].
    destruct (AskPage.loading st) eqn:Hl; simpl; [done |].
    intros [= <- <-]. split; [| done].
    by rewrite trim_nil.
Qed.

(** A question of three spaces is ignored; a padded question is trimmed
    and sent. *)
Lemma C5_handleSubmit_guard_witness :
  AskPage.handleSubmit (js "t1") (js "t2") st_blank_question = (st_blank_question, None)
  ∧ trim (AskPage.currentQuestion st_question) = js "What is the sprint goal?"
  ∧ trim (AskPage.currentQuestion st_question) ≠ []
  ∧ AskPage.loading st_question = false.
Proof.
  split.
  - apply (proj1 (C5_handleSubmit_guard (js "t1") (js "t2") st_blank_question)).
    left. vm_compute. repeat constructor.
  - split; [reflexivity |].
    pose proof (proj2 (C5_handleSubmit_guard (js "t1") (js "t2") st_question)
                  _ _ eq_refl) as (H1 & H2 & _).
    exact (conj H1 H2).
Defined.

(** ** services/api.js: payloads, defaults and interceptors *)

Section ApiFacts.
Import Api.

Lemma askQuestion_ok (q o : JsValue) :
  o ≠ JNull →
  askQuestion q o =
    Ok (post (js "/query/ask")
          (JObj [("question", q);
                 ("document_ids", prop (default_options o) "documentIds");
                 ("max_chunks",
                  jor (prop (default_options o) "maxChunks") (JNum 5%float));
                 ("temperature",
                  jor (prop (default_options o) "temperature") (JNum 0.7%float))])).
Proof. intros Ho. by destruct o. Qed.

Lemma searchDocuments_ok (q o : JsValue) :
  o ≠ JNull →
  searchDocuments q o =
    Ok (post (js "/query/search")
          (JObj [("question", q);
                 ("document_ids", prop (default_options o) "documentIds");
                 ("max_chunks",
                  jor (prop (default_options o) "maxChunks") (JNum 10%float))])).
Proof. intros Ho. by destruct o. Qed.

(** A request made with [options = null] throws before anything is sent. *)
Lemma askQuestion_null (q : JsValue) : askQuestion q JNull = Throw TypeError.
Proof. reflexivity. Qed.

Lemma searchDocuments_null (q : JsValue) : searchDocuments q JNull = Throw TypeError.
Proof. reflexivity. Qed.

Lemma request_interceptor_data (b : Browser) (r : Request) :
  data (request_interceptor b r) = data r.
Proof.
  unfold request_interceptor. destruct (getItem b "authToken"); [| done].
  by destruct (truthy _).
Qed.

Lemma request_interceptor_authorization (b : Browser) (u : jsstring) (p : JsValue) :
  headers (request_interceptor b (post u p)) !! "Authorization" = bearer b.
Proof.
  unfold request_interceptor, bearer.
  destruct (getItem b "authToken") as [token|]; [| done].
  destruct (truthy (JStr token)); [| done].
  simpl. by rewrite lookup_insert_eq.
Qed.

(** [a || d] with a truthy default is never falsy. *)
Lemma jor_truthy (a d : JsValue) : truthy d = true → truthy (jor a d) = true.
Proof. unfold jor. by destruct (truthy a) eqn:Ha. Qed.

Lemma jor_falsy (a d : JsValue) : truthy a = false → jor a d = d.
Proof. unfold jor. by intros ->. Qed.

End ApiFacts.

(** C2.  Whatever question and options are passed, the payload of an ask
    has exactly the fields question, document_ids, max_chunks and
    temperature, the payload of a search exactly question, document_ids
    and max_chunks, so neither has an owner_id field; the request
    interceptor leaves the payload as it is and the Authorization header
    it sends is [Bearer] followed by the stored token (none when no
    non-empty token is stored). *)
Theorem C2_payload_has_no_owner_id (q o : JsValue) (b : Api.Browser) :
  (∀ r, Api.askQuestion q o = Ok r →
     Api.payload_fields (Api.request_interceptor b r)
       = ["question"; "document_ids"; "max_chunks"; "temperature"]
     ∧ ("owner_id" ∉ Api.payload_fields (Api.request_interceptor b r))
     ∧ Api.data (Api.request_interceptor b r) = Api.data r
     ∧ Api.headers (Api.request_interceptor b r) !! "Authorization" = Api.bearer b)
  ∧ (∀ r, Api.searchDocuments q o = Ok r →
     Api.payload_fields (Api.request_interceptor b r)
       = ["question"; "document_ids"; "max_chunks"]
     ∧ ("owner_id" ∉ Api.payload_fields (Api.request_interceptor b r))
     ∧ Api.data (Api.request_interceptor b r) = Api.data r
     ∧ Api.headers (Api.request_interceptor b r) !! "Authorization" = Api.bearer b).
Proof.
  assert (o = JNull ∨ o ≠ JNull) as [-> | Ho] by (destruct o; naive_solver).
  { split; intros r; [rewrite askQuestion_null | rewrite searchDocuments_null]; done. }
  split; intros r.
  - rewrite (askQuestion_ok _ _ Ho). intros [= <-].
    unfold Api.payload_fields. rewrite request_interceptor_data.
    rewrite request_interceptor_authorization. simpl.
    split_and!; [done | | done | done].
    by apply (bool_decide_unpack _).
  - rewrite (searchDocuments_ok _ _ Ho). intros [= <-].
    unfold Api.payload_fields. rewrite request_interceptor_data.
    rewrite request_interceptor_authorization. simpl.
    split_and!; [done | | done | done].
    by apply (bool_decide_unpack _).
Qed.

(** Options that carry an [owner_id] of their own: it does not reach the
    payload, and the header is built from the stored token. *)
Lemma C2_payload_has_no_owner_id_witness :
  ∃ r, Api.askQuestion (JStr (js "Who owns this?")) options_zero = Ok r
    ∧ Api.payload_fields (Api.request_interceptor browser_logged_in r)
        = ["question"; "document_ids"; "max_chunks"; "temperature"]
    ∧ ("owner_id" ∉ Api.payload_fields (Api.request_interceptor browser_logged_in r))
    ∧ Api.data (Api.request_interceptor browser_logged_in r) = Api.data r
    ∧ Api.headers (Api.request_interceptor browser_logged_in r) !! "Authorization"
        = Api.bearer browser_logged_in
    ∧ Api.bearer browser_logged_in = Some (js "Bearer abc.def.ghi").
Proof.
  eexists. split; [reflexivity |].
  pose proof (proj1 (C2_payload_has_no_owner_id (JStr (js "Who owns this?"))
                       options_zero browser_logged_in) _ eq_refl)
    as (H1 & H2 & H3 & H4).
  split_and!; [exact H1 | exact H2 | exact H3 | exact H4 | reflexivity].
Defined.

(** C9.  When [maxChunks] or [temperature] is passed as 0, or left out
    (also by passing no options at all), the payload carries the default
    instead: max_chunks 5 for an ask and 10 for a search, temperature
    0.7.  The defaulting is [||], so the payload's max_chunks and
    temperature are never falsy: zero cannot be requested. *)
Theorem C9_zero_or_omitted_takes_default (q o : JsValue) :
  o ≠ JNull →
  ∃ r s,
    Api.askQuestion q o = Ok r ∧ Api.searchDocuments q o = Ok s
    ∧ (zero_or_omitted (prop (Api.default_options o) "maxChunks") →
       Api.payload_field r "max_chunks" = JNum 5%float
       ∧ Api.payload_field s "max_chunks" = JNum 10%float)
    ∧ (zero_or_omitted (prop (Api.default_options o) "temperature") →
       Api.payload_field r "temperature" = JNum 0.7%float)
    ∧ truthy (Api.payload_field r "max_chunks") = true
    ∧ truthy (Api.payload_field r "temperature") = true
    ∧ truthy (Api.payload_field s "max_chunks") = true
    ∧ Api.payload_field r "max_chunks" ≠ JNum 0%float
    ∧ Api.payload_field r "temperature" ≠ JNum 0%float
    ∧ Api.payload_field s "max_chunks" ≠ JNum 0%float.
Proof.
  intros Ho. do 2 eexists.
  split; [by apply askQuestion_ok |]. split; [by apply searchDocuments_ok |].
  unfold Api.payload_field, zero_or_omitted. cbn.
  assert (∀ a d, truthy d = true → jor a d ≠ JNum 0%float) as Hnz.
  { intros a d Hd Heq. apply (jor_truthy a) in Hd. by rewrite Heq in Hd. }
  split_and!; try (by apply jor_truthy); try (by apply Hnz).
  - intros [-> | ->]; done.
  - intros [-> | ->]; done.
Qed.

(** Options with [maxChunks] and [temperature] both 0. *)
Lemma C9_zero_or_omitted_takes_default_witness :
  ∃ r s,
    Api.askQuestion (JStr (js "q")) options_zero = Ok r
    ∧ Api.searchDocuments (JStr (js "q")) options_zero = Ok s
    ∧ Api.payload_field r "max_chunks" = JNum 5%float
    ∧ Api.payload_field s "max_chunks" = JNum 10%float
    ∧ Api.payload_field r "temperature" = JNum 0.7%float.
Proof.
  assert (options_zero ≠ JNull) as Ho by done.
  destruct (C9_zero_or_omitted_takes_default (JStr (js "q")) options_zero Ho)
    as (r & s & Hr & Hs & Hmc & Ht & _).
  exists r, s. split; [exact Hr |]. split; [exact Hs |].
  destruct (Hmc (or_introl eq_refl)) as [H5 H10].
  split; [exact H5 |]. split; [exact H10 |].
  exact (Ht (or_introl eq_refl)).
Defined.

(** ** C10: the response interceptor *)

Section ResponseInterceptor.
Import Api.

Lemma settle_not_2xx (r : HttpResponse) :
  validateStatus (status r) = false →
  settle (Some r) = Rejected {| response := Some r |}.
Proof. unfold settle. by intros ->. Qed.

Lemma validateStatus_401 (r : HttpResponse) :
  status r = 401%N → validateStatus (status r) = false.
Proof. by intros ->. Qed.

(** Whatever the error, the rejected handler rejects with that error. *)
Lemma response_rejected_propagates (e : AxiosError) (b : Browser) :
  (response_rejected e b).2 = Rejected e.
Proof. reflexivity. Qed.

Lemma response_rejected_other (e : AxiosError) (b : Browser) :
  status_is_401 e = false → response_rejected e b = (b, Rejected e).
Proof. unfold response_rejected. by intros ->. Qed.

End ResponseInterceptor.

(** C10.  A response with status 401 settles the call as rejected, and
    the state of the browser that comes with the rejection has neither
    [authToken] nor [userData] in localStorage, every other key as
    before, and the location set to [/login]; the error that is
    propagated carries the response.  A response with any other status,
    and a call that got no response, leave localStorage and the location
    as they were. *)
Theorem C10_unauthorized_clears_credentials (r : Api.HttpResponse) (b : Api.Browser) :
  (Api.status r = 401%N →
   ∃ b', Api.receive (Some r) b = (b', Api.Rejected {| Api.response := Some r |})
     ∧ Api.getItem b' "authToken" = None
     ∧ Api.getItem b' "userData" = None
     ∧ Api.location_href b' = js "/login"
     ∧ ∀ k, k ≠ "authToken" → k ≠ "userData" → Api.getItem b' k = Api.getItem b k)
  ∧ (Api.status r ≠ 401%N → (Api.receive (Some r) b).1 = b)
  ∧ (Api.receive None b).1 = b.
Proof.
  split_and!.
  - intros H401. eexists. unfold Api.receive.
    rewrite (settle_not_2xx _ (validateStatus_401 _ H401)).
    unfold Api.response_rejected, Api.status_is_401. simpl. rewrite H401. simpl.
    split; [reflexivity |]. unfold Api.getItem. simpl.
    split_and!.
    + rewrite lookup_delete_ne by done. apply lookup_delete_eq.
    + apply lookup_delete_eq.
    + done.
    + intros k H1 H2. by rewrite !lookup_delete_ne.
  - intros Hne. unfold Api.receive, Api.settle.
    destruct (Api.validateStatus (Api.status r)); [done |].
    rewrite response_rejected_other; [done |].
    unfold Api.status_is_401. simpl. by apply N.eqb_neq.
  - reflexivity.
Qed.

(** A 401 clears the credentials and keeps the other key; a 503 changes
    nothing. *)
Lemma C10_unauthorized_clears_credentials_witness :
  (∃ b', Api.receive (Some response_401) browser_with_other_keys
           = (b', Api.Rejected {| Api.response := Some response_401 |})
     ∧ Api.getItem b' "authToken" = None
     ∧ Api.getItem b' "userData" = None
     ∧ Api.location_href b' = js "/login"
     ∧ Api.getItem b' "theme" = Some (js "dark"))
  ∧ (Api.receive (Some response_503) browser_with_other_keys).1
      = browser_with_other_keys.
Proof.
  split.
  - destruct (proj1 (C10_unauthorized_clears_credentials response_401
                       browser_with_other_keys) eq_refl)
      as (b' & H1 & H2 & H3 & H4 & H5).
    exists b'. split_and!; [exact H1 | exact H2 | exact H3 | exact H4 |].
    rewrite H5 by done. reflexivity.
  - apply (proj1 (proj2 (C10_unauthorized_clears_credentials response_503
                           browser_with_other_keys))).
    done.
Defined.

(** ** C3: validation before upload *)

Section Upload.
Import Api UploadPage.

Lemma MAX_SIZE_bytes : MAX_SIZE = 52428800%N.
Proof. reflexivity. Qed.

(** A request leaves [handleFileUpload] only for a PDF within the size
    limit, and it is the upload of that file. *)
Lemma handleFileUpload_request (file : option File) (st st' : State) (req : Request) :
  handleFileUpload file st = (st', Some req) →
  ∃ f, file = Some f ∧ file_type f = js "application/pdf"
    ∧ (file_size f ≤ MAX_SIZE)%N ∧ req = uploadPDF f.
Proof.
  unfold handleFileUpload. destruct file as [f|]; [| done].
  case_bool_decide as Ht; simpl; [| done].
  destruct (MAX_SIZE <? file_size f)%N eqn:Hs; [done |].
  intros [= <- <-]. exists f. split_and!; try done.
  by apply N.ltb_ge.
Qed.

End Upload.

(** C3.  A file whose type is not application/pdf, or whose size is over
    50 * 1024 * 1024 bytes, is rejected by [handleFileUpload]: no request
    is made, the error cell holds "Please select a PDF file" (wrong
    type) or "File size must be less than 50MB" (a PDF that is too
    large), and nothing else of the state changes.  A file of type
    application/pdf of at most that size is uploaded: the request is a
    multipart POST to /files/upload with the file as its form data, the
    page is uploading, error and success are cleared and the bar is at
    0.  However a file reaches the page (file input or drop), a request
    is only ever made for a PDF within the limit, and it uploads that
    file. *)
Theorem C3_upload_validation (f : Api.File) (st : UploadPage.State) :
  (Api.file_type f ≠ js "application/pdf" ∨ (UploadPage.MAX_SIZE < Api.file_size f)%N →
   ∃ st' msg,
     UploadPage.handleFileUpload (Some f) st = (st', None)
     ∧ UploadPage.error st' = JStr msg
     ∧ msg = (if bool_decide (Api.file_type f = js "application/pdf")
              then js "File size must be less than 50MB"
              else js "Please select a PDF file")
     ∧ msg ≠ []
     ∧ UploadPage.same_but_error st st')
  ∧ (Api.file_type f = js "application/pdf" →
     (Api.file_size f ≤ UploadPage.MAX_SIZE)%N →
     ∃ st' req,
       UploadPage.handleFileUpload (Some f) st = (st', Some req)
       ∧ Api.is_upload_of req f
       ∧ UploadPage.uploading st' = true
       ∧ UploadPage.error st' = JStr []
       ∧ UploadPage.success st' = JStr []
       ∧ UploadPage.uploadProgress st' = 0%N
       ∧ UploadPage.documents st' = UploadPage.documents st)
  ∧ (∀ files st' req,
       UploadPage.handleFileSelect files st = (st', Some req)
       ∨ UploadPage.handleDrop files st = (st', Some req) →
       ∃ g, g ∈ files ∧ Api.file_type g = js "application/pdf"
         ∧ (Api.file_size g ≤ UploadPage.MAX_SIZE)%N ∧ Api.is_upload_of req g).
Proof.
  split_and!.
  - intros Hbad. unfold UploadPage.handleFileUpload.
    case_bool_decide as Ht; simpl.
    + destruct Hbad as [Hbad | Hbad]; [done |].
      apply N.ltb_lt in Hbad. rewrite Hbad.
      eexists _, _. split; [reflexivity |]. simpl.
      split; [reflexivity |]. by split_and!.
    + eexists _, _. split; [reflexivity |]. simpl.
      split; [reflexivity |]. by split_and!.
  - intros Ht Hs. unfold UploadPage.handleFileUpload.
    rewrite bool_decide_eq_true_2 by done. simpl.
    apply N.ltb_ge in Hs. rewrite Hs.
    eexists _, _. split; [reflexivity |]. simpl.
    split; [| done]. simpl. split_and!; by rewrite ?lookup_insert_eq.
  - assert (∀ g, Api.is_upload_of (Api.uploadPDF g) g) as Hup.
    { intros g. simpl.
      split_and!; by rewrite ?lookup_insert_eq. }
    intros files st' req [H | H].
    + unfold UploadPage.handleFileSelect in H. destruct files as [|g files]; [done |].
      apply handleFileUpload_request in H as (g' & [= <-] & ? & ? & ->).
      exists g. split_and!; try done. left.
    + unfold UploadPage.handleDrop in H.
      destruct (List.find _ files) as [g|] eqn:Hfind; [| done].
      apply handleFileUpload_request in H as (g' & [= <-] & ? & ? & ->).
      exists g. split_and!; try done.
      apply find_some in Hfind as [Hin _]. by apply list_elem_of_In.
Qed.

(** A text file and a PDF one byte over the limit are rejected, each
    with its message; a PDF of exactly 50 MB is uploaded. *)
Lemma C3_upload_validation_witness :
  (∃ st', UploadPage.handleFileUpload (Some file_text) upload_state = (st', None)
     ∧ UploadPage.error st' = JStr (js "Please select a PDF file"))
  ∧ (∃ st', UploadPage.handleFileUpload (Some file_pdf_too_large) upload_state
              = (st', None)
     ∧ UploadPage.error st' = JStr (js "File size must be less than 50MB"))
  ∧ (∃ st' req, UploadPage.handleFileUpload (Some file_pdf_at_limit) upload_state
                  = (st', Some req)
     ∧ Api.method req = Api.POST
     ∧ Api.url req = js "/files/upload"
     ∧ Api.data req = Api.FormData file_pdf_at_limit
     ∧ UploadPage.uploading st' = true).
Proof.
  split_and!.
  - destruct (proj1 (C3_upload_validation file_text upload_state))
      as (st' & msg & H & He & -> & _); [by left |].
    exists st'. split; [exact H | exact He].
  - destruct (proj1 (C3_upload_validation file_pdf_too_large upload_state))
      as (st' & msg & H & He & -> & _); [by right |].
    exists st'. split; [exact H | exact He].
  - destruct (proj1 (proj2 (C3_upload_validation file_pdf_at_limit upload_state)))
      as (st' & req & H & (Hm & Hu & Hd & _) & Hup & _); [done | done |].
    exists st', req. by split_and!.
Defined.

(** The early upload page sends whatever file is selected: there the
    type and size are not looked at. *)
Remark early_handleUpload_any_file (f : Api.File) (fs : list jsstring) (m : jsstring) :
  ∃ req, EarlyUploadPage.handleUpload
           {| EarlyUploadPage.file := Some f; EarlyUploadPage.files := fs;
              EarlyUploadPage.message := m |} = Some req
    ∧ Api.data req = Api.FormData f.
Proof. by eexists. Qed.

(** ** C4 and C6: how an ask settles on the page *)

Section AskSettled.
Import Api AskPage.

Lemma withoutThinking_no_thinking (prev : list JsValue) :
  Forall (λ m, truthy (prop m "isThinking") = false) (withoutThinking prev).
Proof.
  unfold withoutThinking. apply Forall_forall. intros m Hm.
  by apply list_elem_of_filter in Hm as [? _].
Qed.

Lemma withoutThinking_sublist (prev : list JsValue) :
  withoutThinking prev ⊆ prev.
Proof. intros m Hm. by apply list_elem_of_filter in Hm as [_ ?]. Qed.

(** The content of an error message and of the banner is never falsy:
    the fallback text takes over. *)
Lemma error_text_truthy (e : AxiosError) (fallback : string) :
  fallback ≠ EmptyString → truthy (jor (error_detail e) (JStr (js fallback))) = true.
Proof.
  intros Hf. apply jor_truthy. destruct fallback; [done |]. reflexivity.
Qed.

Lemma renderMessage_errorMessage (c : JsValue) (t : jsstring) :
  renderMessage (errorMessage c t) = ErrorBubble c (JStr t).
Proof. reflexivity. Qed.

Lemma renderMessage_assistantMessage (a s m p : JsValue) (t : jsstring) :
  renderMessage (assistantMessage a s m p t) = AssistantBubble a s (JStr t) p.
Proof. reflexivity. Qed.

Lemma handleSubmit_settled_fulfilled (t : jsstring) (resp : JsValue) (st : State) :
  nullish resp = false →
  handleSubmit_settled t (Fulfilled resp) st =
    Ok {| messages :=
            withoutThinking (messages st)
              ++ [assistantMessage (prop resp "answer") (prop resp "sources")
                    (prop resp "model_info") (prop resp "processing_time_ms") t];
          loading := false;
          currentQuestion := currentQuestion st;
          error := error st;
          settings := settings st;
          showSettings := showSettings st |}.
Proof. intros Hn. unfold handleSubmit_settled, member. by rewrite Hn. Qed.

End AskSettled.




(** C6, as the code has it.  A fulfilled ask whose body is not null is
    shown as one assistant message whose content is the body's [answer]
    field, whose sources are its [sources] field, model info its
    [model_info] field and processing time its [processing_time_ms]
    field; two bodies that agree on these four fields give the same
    page.  The early ask page reads [answer] and [references]. *)
Theorem C6_answer_read_from_answer_field (t : jsstring) (resp resp' : JsValue)
    (st : AskPage.State) :
  nullish resp = false →
  (∃ st', AskPage.handleSubmit_settled t (Api.Fulfilled resp) st = Ok st'
     ∧ AskPage.messages st'
         = AskPage.withoutThinking (AskPage.messages st)
             ++ [AskPage.assistantMessage (prop resp "answer") (prop resp "sources")
                   (prop resp "model_info") (prop resp "processing_time_ms") t]
     ∧ AskPage.renderMessage
         (AskPage.assistantMessage (prop resp "answer") (prop resp "sources")
            (prop resp "model_info") (prop resp "processing_time_ms") t)
         = AskPage.AssistantBubble (prop resp "answer") (prop resp "sources")
             (JStr t) (prop resp "processing_time_ms"))
  ∧ (nullish resp' = false →
     Forall (λ k, prop resp k = prop resp' k)
       ["answer"; "sources"; "model_info"; "processing_time_ms"] →
     AskPage.handleSubmit_settled t (Api.Fulfilled resp) st
       = AskPage.handleSubmit_settled t (Api.Fulfilled resp') st)
  ∧ (∀ s early,
       EarlyAskPage.handleAsk_settled
         (Api.Fulfilled {| Api.status := s; Api.response_data := resp |}) early
       = {| EarlyAskPage.question := EarlyAskPage.question early;
            EarlyAskPage.answer := prop resp "answer";
            EarlyAskPage.references := jor (prop resp "references") (JArr []) |}).
Proof.
  intros Hn. split_and!.
  - eexists. rewrite handleSubmit_settled_fulfilled by done.
    split; [reflexivity |]. split; [reflexivity |].
    apply renderMessage_assistantMessage.
  - intros Hn' Hagree. rewrite !handleSubmit_settled_fulfilled by done.
    rewrite !Forall_cons in Hagree.
    destruct Hagree as (-> & -> & -> & -> & _). done.
  - intros s early. unfold EarlyAskPage.handleAsk_settled, EarlyAskPage.handleAsk_try, member.
    simpl. by rewrite Hn.
Qed.

(** A body with the text under [answer] is shown with that text. *)
Lemma C6_answer_read_from_answer_field_witness :
  ∃ st', AskPage.handleSubmit_settled (js "2024-05-01T10:00:02.000Z")
           (Api.Fulfilled answer_response) st_waiting = Ok st'
    ∧ AskPage.renderMessage <$> last (AskPage.messages st')
        = Some (AskPage.AssistantBubble (JStr (js "The sprint goal is X."))
                  (prop answer_result "sources")
                  (JStr (js "2024-05-01T10:00:02.000Z")) (JNum 1234%float)).
Proof.
  destruct (proj1 (C6_answer_read_from_answer_field (js "2024-05-01T10:00:02.000Z")
                     answer_response answer_response st_waiting eq_refl))
    as (st' & H1 & H2 & H3).
  exists st'. split; [exact H1 |].
  rewrite H2, last_snoc. simpl. f_equal.
Defined.

(** The claim C6 as the data model words it fails: for a body with the
    text under [answer_text], the assistant bubble has [undefined] as its
    content, not the text. *)
Lemma C6_counterexample_answer_text_not_read :
  ∃ st', AskPage.handleSubmit_settled (js "2024-05-01T10:00:02.000Z")
           (Api.Fulfilled answer_result) st_waiting = Ok st'
    ∧ prop answer_result "answer_text" = JStr (js "The sprint goal is X.")
    ∧ AskPage.renderMessage <$> last (AskPage.messages st')
        = Some (AskPage.AssistantBubble JUndefined
                  (prop answer_result "sources")
                  (JStr (js "2024-05-01T10:00:02.000Z")) (JNum 1234%float))
    ∧ (λ m, prop m "content") <$> last (AskPage.messages st')
        ≠ Some (prop answer_result "answer_text").
Proof.
  eexists. split; [reflexivity |]. split; [reflexivity |].
  split; [reflexivity |]. discriminate.
Qed.

(** ** C7 and C8: what the dashboard reads *)

Section Dashboard.
Import Api DashboardPage.

(** Whether the [try] throws depends on the documents response only. *)
Lemma load_try_throws (s s' d h h' : Settled JsValue) (st st' : State) :
  (load_try s d h st).2 = None → (load_try s' d h' st').2 = None.
Proof.
  unfold load_try. destruct d as [v|e]; simpl.
  - destruct (member v "documents") as [ds|]; simpl; [| done].
    destruct (slice_0_5 ds); simpl; done.
  - done.
Qed.

(** The stats cell after loading is the fulfilled stats response,
    whatever happens to the other two calls. *)
Lemma loadDashboardData_stats (v : JsValue) (d h : Settled JsValue) (st : State) :
  stats (loadDashboardData (Fulfilled v) d h st) = v.
Proof.
  unfold loadDashboardData, load_try. simpl.
  destruct d as [w|e]; simpl.
  - destruct (member w "documents") as [ds|]; simpl; [| done].
    destruct (slice_0_5 ds); simpl; [| done].
    by destruct (truthy (health_or_null h)).
  - by destruct (truthy (health_or_null h)).
Qed.

Lemma loadDashboardData_stats_rejected (e : AxiosError) (d h : Settled JsValue) (st : State) :
  stats (loadDashboardData (Rejected e) d h st) = stats st.
Proof.
  unfold loadDashboardData, load_try. simpl.
  destruct d as [w|e']; simpl.
  - destruct (member w "documents") as [ds|]; simpl; [| done].
    destruct (slice_0_5 ds); simpl; [| done].
    by destruct (truthy (health_or_null h)).
  - by destruct (truthy (health_or_null h)).
Qed.

(** The health cell after loading, when the [try] ran to its end. *)
Lemma loadDashboardData_health (s d : Settled JsValue) (h : JsValue) (st : State) :
  (load_try s d (Fulfilled h) st).2 = None →
  healthStatus (loadDashboardData s d (Fulfilled h) st)
    = if truthy h then h else healthStatus st.
Proof.
  unfold loadDashboardData, load_try. simpl.
  destruct d as [w|e]; simpl.
  - destruct (member w "documents") as [ds|]; simpl; [| done].
    destruct (slice_0_5 ds); simpl; [| done].
    intros _. destruct (truthy h); simpl; by destruct s.
  - intros _. destruct (truthy h); simpl; by destruct s.
Qed.

(** Loading ends with the spinner gone, also when the [try] threw. *)
Lemma loadDashboardData_loading (s d h : Settled JsValue) (st : State) :
  loading (loadDashboardData s d h st) = false.
Proof. reflexivity. Qed.

End Dashboard.

(** C7, as the code has it.  After the stats call is fulfilled with a
    truthy value, the four cards of the dashboard show its fields
    [total_documents], [total_file_size_mb], [total_chunks] and
    [documents_by_status.completed] (0 when that is missing or falsy);
    two stats values that agree on these four fields give the same
    cards. *)
Theorem C7_stats_cards_fields (v v' : JsValue) (d h : Api.Settled JsValue)
    (st : DashboardPage.State) :
  truthy v = true →
  DashboardPage.stats_grid (DashboardPage.loadDashboardData (Api.Fulfilled v) d h st)
    = Some {| DashboardPage.card_total_documents := prop v "total_documents";
              DashboardPage.card_storage_used_mb := prop v "total_file_size_mb";
              DashboardPage.card_text_chunks := prop v "total_chunks";
              DashboardPage.card_processed :=
                jor (prop (prop v "documents_by_status") "completed") (JNum 0%float) |}
  ∧ (truthy v' = true →
     Forall (λ k, prop v k = prop v' k)
       ["total_documents"; "total_file_size_mb"; "total_chunks"; "documents_by_status"] →
     DashboardPage.stats_grid (DashboardPage.loadDashboardData (Api.Fulfilled v) d h st)
       = DashboardPage.stats_grid (DashboardPage.loadDashboardData (Api.Fulfilled v') d h st)).
Proof.
  intros Hv. unfold DashboardPage.stats_grid.
  rewrite !loadDashboardData_loading, !loadDashboardData_stats, Hv. split; [done |].
  intros -> Hagree. rewrite !Forall_cons in Hagree.
  destruct Hagree as (-> & -> & -> & -> & _). done.
Qed.

(** A stats response under the names the dashboard reads fills the four
    cards. *)
Lemma C7_stats_cards_fields_witness :
  DashboardPage.stats_grid
    (DashboardPage.loadDashboardData (Api.Fulfilled stats_response)
       (Api.Fulfilled documents_response) (Api.Fulfilled health_response)
       DashboardPage.initial)
  = Some {| DashboardPage.card_total_documents := JNum 3%float;
            DashboardPage.card_storage_used_mb := JNum 0.002%float;
            DashboardPage.card_text_chunks := JNum 12%float;
            DashboardPage.card_processed := JNum 3%float |}.
Proof.
  exact (proj1 (C7_stats_cards_fields stats_response stats_response
                  (Api.Fulfilled documents_response) (Api.Fulfilled health_response)
                  DashboardPage.initial eq_refl)).
Defined.

(** The claim C7 as the interface description words it fails: for a
    stats record with [total_bytes] and [counts_by_status], the storage
    card shows [undefined] and the processed card 0, although three
    documents are completed. *)
Lemma C7_counterexample_total_bytes_not_read :
  prop stats_record "total_bytes" = JNum 2048%float
  ∧ prop (prop stats_record "counts_by_status") "completed" = JNum 3%float
  ∧ DashboardPage.stats_grid
      (DashboardPage.loadDashboardData (Api.Fulfilled stats_record)
         (Api.Fulfilled documents_response) (Api.Fulfilled health_response)
         DashboardPage.initial)
    = Some {| DashboardPage.card_total_documents := JNum 3%float;
              DashboardPage.card_storage_used_mb := JUndefined;
              DashboardPage.card_text_chunks := JNum 12%float;
              DashboardPage.card_processed := JNum 0%float |}.
Proof. split_and!; reflexivity. Qed.

(** C8, as the code has it.  After the health call is fulfilled with a
    truthy value (and the documents response did not make the load
    throw), the three lights of the system-status panel are: embedding
    service green iff [embedding_service.working] is truthy, LLM service
    green iff [llm_service.available] is truthy, vector database green
    iff [vector_store.total_chunks >= 0]; two health values that agree on
    the fields [embedding_service], [llm_service] and [vector_store] give
    the same panel. *)
Theorem C8_system_status_fields (ToNumber_other : JsValue → float) (h h' : JsValue)
    (s d : Api.Settled JsValue) (st : DashboardPage.State) :
  (DashboardPage.load_try s d (Api.Fulfilled h) st).2 = None →
  truthy h = true →
  DashboardPage.system_status ToNumber_other
    (DashboardPage.loadDashboardData s d (Api.Fulfilled h) st)
    = Some {| DashboardPage.light_embedding_service :=
                DashboardPage.light (truthy (prop (prop h "embedding_service") "working"));
              DashboardPage.light_llm_service :=
                DashboardPage.light (truthy (prop (prop h "llm_service") "available"));
              DashboardPage.light_vector_database :=
                DashboardPage.light
                  (DashboardPage.ge_zero ToNumber_other
                     (prop (prop h "vector_store") "total_chunks")) |}
  ∧ (truthy h' = true →
     Forall (λ k, prop h k = prop h' k)
       ["embedding_service"; "llm_service"; "vector_store"] →
     DashboardPage.system_status ToNumber_other
       (DashboardPage.loadDashboardData s d (Api.Fulfilled h) st)
     = DashboardPage.system_status ToNumber_other
         (DashboardPage.loadDashboardData s d (Api.Fulfilled h') st)).
Proof.
  intros Htry Hh. unfold DashboardPage.system_status.
  rewrite !loadDashboardData_loading.
  rewrite (loadDashboardData_health _ _ _ _ Htry), Hh. cbn zeta iota.
  rewrite Hh. split; [done |].
  intros Hh' Hagree.
  rewrite (loadDashboardData_health s d h' st) by (by eapply load_try_throws).
  rewrite Hh'. cbn zeta iota. rewrite Hh'. rewrite !Forall_cons in Hagree.
  destruct Hagree as (-> & -> & -> & _). done.
Qed.

(** A health response under the names the dashboard reads turns the
    three lights green. *)
Lemma C8_system_status_fields_witness :
  DashboardPage.system_status ToNumber_nan
    (DashboardPage.loadDashboardData (Api.Fulfilled stats_response)
       (Api.Fulfilled documents_response) (Api.Fulfilled health_response)
       DashboardPage.initial)
  = Some {| DashboardPage.light_embedding_service := DashboardPage.Green;
            DashboardPage.light_llm_service := DashboardPage.Green;
            DashboardPage.light_vector_database := DashboardPage.Green |}.
Proof.
  exact (proj1 (C8_system_status_fields ToNumber_nan health_response health_response
                  (Api.Fulfilled stats_response) (Api.Fulfilled documents_response)
                  DashboardPage.initial eq_refl eq_refl)).
Defined.

(** The claim C8 as the interface description words it fails: for a
    health record with [embedding_service], [generation_service],
    [vector_index] all reachable and a [chunk_count], the three lights
    are red. *)
Lemma C8_counterexample_reachable_shown_red :
  truthy (prop health_record "embedding_service") = true
  ∧ truthy (prop health_record "generation_service") = true
  ∧ truthy (prop health_record "vector_index") = true
  ∧ prop health_record "chunk_count" = JNum 12%float
  ∧ DashboardPage.system_status ToNumber_nan
      (DashboardPage.loadDashboardData (Api.Fulfilled stats_response)
         (Api.Fulfilled documents_response) (Api.Fulfilled health_record)
         DashboardPage.initial)
    = Some {| DashboardPage.light_embedding_service := DashboardPage.Red;
              DashboardPage.light_llm_service := DashboardPage.Red;
              DashboardPage.light_vector_database := DashboardPage.Red |}.
Proof. split_and!; reflexivity. Qed.

(** ** C1: owner isolation of the vector index *)

Section IndexFacts.
Import VectorIndex.
Context {Vec : Type}.

Lemma elem_of_owned_by (owner : N) (idx : gmap N (Chunk Vec)) (e : N * Chunk Vec) :
  e ∈ owned_by Vec owner idx ↔ idx !! e.1 = Some e.2 ∧ owner_id e.2 = owner.
Proof.
  unfold owned_by. rewrite list_elem_of_filter.
  destruct e as [i c]. rewrite elem_of_map_to_list. simpl. tauto.
Qed.

Lemma filter_none {A} (P : A → Prop) `{!∀ x, Decision (P x)} (l : list A) :
  Forall (λ x, ¬ P x) l → filter P l = [].
Proof.
  induction 1 as [|x l Hx _ IH]; [done |].
  rewrite filter_cons. by destruct (decide (P x)).
Qed.

(** Ids of documents the caller does not own drop out at validation. *)
Lemma validate_documents_foreign (owner : N) (ds foreign : list N)
    (idx : gmap N (Chunk Vec)) :
  Forall (λ d, d ∉ documents_of Vec owner idx) foreign →
  validate_documents Vec owner (ds ++ foreign) idx = validate_documents Vec owner ds idx.
Proof.
  intros Hf. unfold validate_documents.
  rewrite filter_app, (filter_none _ foreign Hf). apply app_nil_r.
Qed.

Lemma validate_documents_subseteq (owner : N) (ds : list N) (idx : gmap N (Chunk Vec)) :
  validate_documents Vec owner ds idx ⊆ ds.
Proof. intros d Hd. by apply list_elem_of_filter in Hd as [_ ?]. Qed.

End IndexFacts.

(** C1.  Every (chunk id, score) pair a query for owner [A] returns is
    the id of a chunk of the index whose owner is [A], with its
    similarity to the query vector, whatever the scores of other owners'
    chunks and whether or not document ids are supplied; with document
    ids, the chunk's document is one of them.  The ids are validated
    against the caller's own documents before they filter: adding ids of
    documents the caller does not own to the request does not change the
    result. *)
Theorem C1_query_owner_isolation {Vec : Type} (similarity : Vec → Vec → Q)
    (v : Vec) (A : N) (document_ids : option (list N)) (k : nat)
    (idx : gmap N (VectorIndex.Chunk Vec)) :
  Forall (λ r, ∃ c, idx !! r.1 = Some c
                 ∧ VectorIndex.owner_id c = A
                 ∧ r.2 = similarity v (VectorIndex.embedding_vector c)
                 ∧ ∀ ds, document_ids = Some ds → VectorIndex.document_id c ∈ ds)
    (VectorIndex.query Vec similarity v A document_ids k idx)
  ∧ (∀ ds foreign,
       Forall (λ d, d ∉ VectorIndex.documents_of Vec A idx) foreign →
       VectorIndex.query Vec similarity v A (Some (ds ++ foreign)) k idx
       = VectorIndex.query Vec similarity v A (Some ds) k idx).
Proof.
  split.
  - apply Forall_forall. intros r Hr. unfold VectorIndex.query in Hr.
    apply subseteq_take in Hr. rewrite merge_sort_Permutation in Hr.
    apply list_elem_of_fmap in Hr as (e & -> & He). simpl.
    exists e.2. destruct document_ids as [ds|].
    + apply list_elem_of_filter in He as [Hdoc He].
      apply elem_of_owned_by in He as [Hlook Hown].
      split_and!; try done. intros ds' [= <-].
      by apply (validate_documents_subseteq A ds idx).
    + apply elem_of_owned_by in He as [Hlook Hown]. by split_and!.
  - intros ds foreign Hf. unfold VectorIndex.query.
    by rewrite validate_documents_foreign.
Qed.

(** Two owners, overlapping content: owner 1 gets only its own chunk
    although both chunks of owner 2 score at least as high, also when
    owner 2's document ids are put in the request. *)
Lemma C1_query_owner_isolation_witness :
  VectorIndex.query (Q * Q) inner_product (1, 0)%Q 1 None 5 two_owner_index
    = [(1%N, inner_product (1, 0)%Q (1, 0)%Q)]
  ∧ VectorIndex.query (Q * Q) inner_product (1, 0)%Q 2 None 5 two_owner_index
    = [(3%N, inner_product (1, 0)%Q (3, 0)%Q); (2%N, inner_product (1, 0)%Q (1, 0)%Q)]
  ∧ Forall (λ r, ∃ c, two_owner_index !! r.1 = Some c
                   ∧ VectorIndex.owner_id c = 1%N
                   ∧ r.2 = inner_product (1, 0)%Q (VectorIndex.embedding_vector c)
                   ∧ ∀ ds, Some [10%N] = Some ds → VectorIndex.document_id c ∈ ds)
      (VectorIndex.query (Q * Q) inner_product (1, 0)%Q 1 (Some [10%N]) 5 two_owner_index)
  ∧ VectorIndex.query (Q * Q) inner_product (1, 0)%Q 1 (Some ([10; 21] ++ [20; 21])%N) 5
      two_owner_index
    = VectorIndex.query (Q * Q) inner_product (1, 0)%Q 1 (Some [10; 21]%N) 5
        two_owner_index.
Proof.
  split; [vm_compute; reflexivity |]. split; [vm_compute; reflexivity |].
  split.
  - apply (proj1 (C1_query_owner_isolation inner_product (1, 0)%Q 1 (Some [10%N]) 5
                    two_owner_index)).
  - apply (proj2 (C1_query_owner_isolation inner_product (1, 0)%Q 1 (Some [10%N]) 5
                    two_owner_index)).
    repeat constructor; by apply (bool_decide_unpack _).
Defined.

(** * Further properties of the client *)

(** ** More on trimming *)

Section TrimMore.

Lemma trimStart_split (s : jsstring) :
  ∃ pre, s = pre ++ trimStart s ∧ blank pre.
Proof.
  induction s as [|c s (pre & Hs & Hpre)]; simpl.
  - exists []. split; [done | constructor].
  - destruct (is_white_space c) eqn:Hc.
    + exists (c :: pre). split; [by rewrite Hs at 1 | by constructor].
    + exists []. split; [done | constructor].
Qed.

Lemma trimEnd_split (s : jsstring) :
  ∃ post, s = trimEnd s ++ post ∧ blank post.
Proof.
  unfold trimEnd. destruct (trimStart_split (reverse s)) as (pre & Hs & Hpre).
  exists (reverse pre). split.
  - rewrite <- reverse_app, <- Hs. by rewrite reverse_involutive.
  - unfold blank in *. by rewrite Forall_reverse.
Qed.

(** The trimmed string is the original without a blank prefix and a
    blank suffix. *)
Lemma trim_split (s : jsstring) :
  ∃ pre post, s = pre ++ trim s ++ post ∧ blank pre ∧ blank post.
Proof.
  destruct (trimStart_split s) as (pre & Hs & Hpre).
  destruct (trimEnd_split (trimStart s)) as (post & Ht & Hpost).
  exists pre, post. unfold trim. by rewrite <- Ht.
Qed.

Lemma trim_last (s : jsstring) (c : N) :
  last (trim s) = Some c → is_white_space c = false.
Proof.
  unfold trim, trimEnd. rewrite last_reverse. intros H.
  destruct (trimStart (reverse (trimStart s))) as [|d rest] eqn:E; [done |].
  injection H as ->. by apply trimStart_head in E.
Qed.

Lemma trim_head (s : jsstring) (c : N) :
  head (trim s) = Some c → is_white_space c = false.
Proof.
  unfold trim. destruct (trimEnd_split (trimStart s)) as (post & Ht & _).
  intros H. destruct (trimEnd (trimStart s)) as [|d rest]; [done |].
  injection H as ->. by apply trimStart_head in Ht.
Qed.

End TrimMore.

(** ** The chat page: what is sent *)

(** X1.  The submit button is disabled exactly when [handleSubmit] would
    ignore the event: the markup and the handler use the same guard. *)
Theorem X1_submit_button_matches_guard (t_user t_thinking : jsstring)
    (st : AskPage.State) :
  AskPage.submit_disabled st = true
  ↔ (AskPage.handleSubmit t_user t_thinking st).2 = None.
Proof.
  unfold AskPage.submit_disabled, AskPage.handleSubmit.
  rewrite orb_comm. destruct (negb _ || _); simpl; split; done.
Qed.

(** X2.  Whenever [handleSubmit] makes a call, the call is a POST to
    /query/ask whose question is the typed text without a blank prefix
    and a blank suffix: it is not empty and neither starts nor ends with
    white space.  The request interceptor does not change this. *)
Theorem X2_submitted_question_is_trimmed (t_user t_thinking : jsstring)
    (st st' : AskPage.State) (call : Exc Api.Request) (b : Api.Browser) :
  AskPage.handleSubmit t_user t_thinking st = (st', Some call) →
  ∃ req q,
    call = Ok req
    ∧ Api.method (Api.request_interceptor b req) = Api.POST
    ∧ Api.url (Api.request_interceptor b req) = js "/query/ask"
    ∧ Api.payload_field (Api.request_interceptor b req) "question" = JStr q
    ∧ q ≠ []
    ∧ (∃ pre post, AskPage.currentQuestion st = pre ++ q ++ post
                   ∧ blank pre ∧ blank post)
    ∧ (∀ c, head q = Some c → is_white_space c = false)
    ∧ (∀ c, last q = Some c → is_white_space c = false).
Proof.
  intros H. unfold AskPage.handleSubmit in H.
  rewrite truthy_trim, negb_involutive in H.
  case_bool_decide as Hb; simpl in H; [done |].
  destruct (AskPage.loading st); simpl in H; [done |].
  injection H as <- <-.
  exists (Api.post (js "/query/ask")
            (JObj [("question", JStr (trim (AskPage.currentQuestion st)));
                   ("document_ids", JUndefined);
                   ("max_chunks",
                    jor (JNum (AskPage.maxChunks (AskPage.settings st))) (JNum 5%float));
                   ("temperature",
                    jor (JNum (AskPage.temperature (AskPage.settings st)))
                        (JNum 0.7%float))])),
         (trim (AskPage.currentQuestion st)).
  split; [reflexivity |].
  assert (∀ r, Api.method (Api.request_interceptor b r) = Api.method r
               ∧ Api.url (Api.request_interceptor b r) = Api.url r) as Hint.
  { intros r. unfold Api.request_interceptor.
    destruct (Api.getItem b "authToken"); [| done]. by destruct (truthy _). }
  unfold Api.payload_field. rewrite request_interceptor_data.
  split; [by rewrite (proj1 (Hint _)) |]. split; [by rewrite (proj2 (Hint _)) |].
  split; [reflexivity |]. split; [by rewrite trim_nil |].
  split; [apply trim_split |]. split; [apply trim_head | apply trim_last].
Qed.

(** A padded question: the payload has it without the padding. *)
Lemma X2_submitted_question_is_trimmed_witness :
  ∃ req q,
    (AskPage.handleSubmit (js "t1") (js "t2") st_question).2 = Some (Ok req)
    ∧ Api.payload_field (Api.request_interceptor browser_logged_in req) "question"
        = JStr q
    ∧ q ≠ []
    ∧ (∀ c, head q = Some c → is_white_space c = false)
    ∧ (∀ c, last q = Some c → is_white_space c = false).
Proof.
  destruct (X2_submitted_question_is_trimmed (js "t1") (js "t2") st_question
              _ _ browser_logged_in eq_refl)
    as (req & q & Hc & _ & _ & Hq & Hne & _ & Hh & Hl).
  exists req, q. split; [by rewrite <- Hc |]. done.
Defined.

(** X3.  The chat page never restricts an ask to a set of documents
    ([document_ids] is always [undefined]), and its max_chunks and
    temperature are the current settings whenever these are neither 0
    nor NaN; a setting that is 0 or NaN (as [parseInt] gives for a
    non-numeric value) is replaced by the default 5 resp. 0.7. *)
Theorem X3_settings_reach_the_payload (t_user t_thinking : jsstring)
    (st st' : AskPage.State) (call : Exc Api.Request) :
  AskPage.handleSubmit t_user t_thinking st = (st', Some call) →
  ∃ req,
    call = Ok req
    ∧ Api.payload_field req "document_ids" = JUndefined
    ∧ Api.payload_field req "max_chunks"
        = (if truthy (JNum (AskPage.maxChunks (AskPage.settings st)))
           then JNum (AskPage.maxChunks (AskPage.settings st)) else JNum 5%float)
    ∧ Api.payload_field req "temperature"
        = (if truthy (JNum (AskPage.temperature (AskPage.settings st)))
           then JNum (AskPage.temperature (AskPage.settings st)) else JNum 0.7%float).
Proof.
  intros H. unfold AskPage.handleSubmit in H.
  destruct (negb _ || _); [done |]. injection H as <- <-.
  eexists. split; [reflexivity |]. done.
Qed.

(** The settings 10 and 0.3 of the selects reach the payload; a
    [maxChunks] of NaN does not. *)
Lemma X3_settings_reach_the_payload_witness :
  (∃ req,
     (AskPage.handleSubmit (js "t1") (js "t2")
        (AskPage.selectTemperature 0.3%float
           (AskPage.selectMaxChunks 10%float st_question))).2 = Some (Ok req)
     ∧ Api.payload_field req "max_chunks" = JNum 10%float
     ∧ Api.payload_field req "temperature" = JNum 0.3%float)
  ∧ (∃ req,
     (AskPage.handleSubmit (js "t1") (js "t2")
        (AskPage.selectMaxChunks nan st_question)).2 = Some (Ok req)
     ∧ Api.payload_field req "max_chunks" = JNum 5%float).
Proof.
  split.
  - destruct (X3_settings_reach_the_payload (js "t1") (js "t2")
                (AskPage.selectTemperature 0.3%float
                   (AskPage.selectMaxChunks 10%float st_question)) _ _ eq_refl)
      as (req & Hc & _ & Hm & Ht).
    exists req. split; [by rewrite <- Hc |]. split; [exact Hm | exact Ht].
  - destruct (X3_settings_reach_the_payload (js "t1") (js "t2")
                (AskPage.selectMaxChunks nan st_question) _ _ eq_refl)
      as (req & Hc & _ & Hm & _).
    exists req. split; [by rewrite <- Hc | exact Hm].
Defined.

(** ** The chat page: rounds and invariants *)

Section ChatFacts.
Import Api AskPage.

Lemma withoutThinking_id (l : list JsValue) :
  Forall (λ m, ¬ thinking m) l → withoutThinking l = l.
Proof.
  unfold withoutThinking, thinking. induction 1 as [|m l Hm _ IH]; [done |].
  rewrite filter_cons, IH. destruct (decide _) as [|Hn]; [done |].
  destruct (truthy (prop m "isThinking")); done.
Qed.

Lemma withoutThinking_app (l k : list JsValue) :
  withoutThinking (l ++ k) = withoutThinking l ++ withoutThinking k.
Proof. apply filter_app. Qed.

Lemma not_thinking_iff (m : JsValue) :
  ¬ thinking m ↔ truthy (prop m "isThinking") = false.
Proof. unfold thinking. by destruct (truthy _). Qed.

(** The messages after a settling that did not throw: the earlier ones
    minus the placeholder, plus one that is rendered and not thinking. *)
Lemma handleSubmit_settled_messages (t : jsstring) (o : Settled JsValue) (st st' : State) :
  handleSubmit_settled t o st = Ok st' →
  ∃ m, messages st' = withoutThinking (messages st) ++ [m]
    ∧ rendered m ∧ ¬ thinking m ∧ loading st' = false
    ∧ currentQuestion st' = currentQuestion st ∧ settings st' = settings st.
Proof.
  destruct o as [resp|e]; simpl.
  - unfold member. destruct (nullish resp); [done |]. simpl. intros [= <-].
    eexists. split; [reflexivity |]. by split_and!.
  - intros [= <-]. eexists. split; [reflexivity |]. by split_and!.
Qed.

Lemma handleSubmit_messages (t1 t2 : jsstring) (st st' : State) (call : Exc Request) :
  handleSubmit t1 t2 st = (st', Some call) →
  loading st = false
  ∧ messages st' = messages st
      ++ [userMessage (trim (currentQuestion st)) t1; thinkingMessage t2]
  ∧ loading st' = true ∧ currentQuestion st' = [] ∧ error st' = JStr [].
Proof.
  unfold handleSubmit. destruct (negb _) eqn:Hq; simpl; [done |].
  destruct (loading st); simpl; [done |]. intros [= <- <-]. simpl.
  by rewrite <- app_assoc.
Qed.

End ChatFacts.

(** X4.  A round of the chat, from a page without a pending placeholder:
    after the submit and the settling of the call, the conversation is
    the earlier one followed by two messages.  The first is the user's:
    type user, the trimmed question as content, the time of the submit.
    The second is the reply, with the time of the settling: of type
    assistant with the answer, sources, model info and processing time
    of the response when the call was fulfilled, of type error with the
    detail of the response or the fixed apology as content when it was
    rejected.  The page has stopped loading, the input is empty and the
    submit button is disabled again; the error cell is empty after a
    fulfilled call and holds the detail or "Failed to get answer" after
    a rejected one. *)
Theorem X4_chat_round_trip (t_user t_thinking t_reply : jsstring)
    (outcome : Api.Settled JsValue) (st st1 st2 : AskPage.State)
    (call : Exc Api.Request) :
  Forall (λ m, ¬ AskPage.thinking m) (AskPage.messages st) →
  AskPage.handleSubmit t_user t_thinking st = (st1, Some call) →
  AskPage.handleSubmit_settled t_reply outcome st1 = Ok st2 →
  ∃ asked reply,
    AskPage.messages st2 = AskPage.messages st ++ [asked; reply]
    ∧ prop asked "type" = JStr (js "user")
    ∧ prop asked "content" = JStr (trim (AskPage.currentQuestion st))
    ∧ prop asked "timestamp" = JStr t_user
    ∧ prop asked "isThinking" = JUndefined
    ∧ prop reply "timestamp" = JStr t_reply
    ∧ prop reply "isThinking" = JUndefined
    ∧ match outcome with
      | Api.Fulfilled resp =>
          prop reply "type" = JStr (js "assistant")
          ∧ prop reply "content" = prop resp "answer"
          ∧ prop reply "sources" = prop resp "sources"
          ∧ prop reply "modelInfo" = prop resp "model_info"
          ∧ prop reply "processingTime" = prop resp "processing_time_ms"
          ∧ AskPage.error st2 = JStr []
      | Api.Rejected e =>
          prop reply "type" = JStr (js "error")
          ∧ prop reply "content"
              = jor (AskPage.error_detail e)
                  (JStr (js "Sorry, I encountered an error while processing your question."))
          ∧ truthy (prop reply "content") = true
          ∧ prop reply "sources" = JUndefined
          ∧ AskPage.error st2
              = jor (AskPage.error_detail e) (JStr (js "Failed to get answer"))
          ∧ truthy (AskPage.error st2) = true
      end
    ∧ AskPage.loading st2 = false
    ∧ AskPage.currentQuestion st2 = []
    ∧ AskPage.submit_disabled st2 = true.
Proof.
  intros Hidle Hsubmit Hsettled.
  apply handleSubmit_messages in Hsubmit as (_ & Hm1 & _ & Hq1 & He1).
  assert (AskPage.withoutThinking (AskPage.messages st1)
          = AskPage.messages st
              ++ [AskPage.userMessage (trim (AskPage.currentQuestion st)) t_user])
    as Hwt.
  { rewrite Hm1, withoutThinking_app, (withoutThinking_id _ Hidle). done. }
  destruct outcome as [resp|e]; simpl in Hsettled.
  - unfold member in Hsettled. destruct (nullish resp); [done |].
    simpl in Hsettled. injection Hsettled as <-. cbn [AskPage.messages].
    eexists _, _. rewrite Hwt, <- app_assoc. split; [reflexivity |].
    unfold AskPage.submit_disabled.
    cbn [AskPage.error AskPage.loading AskPage.currentQuestion].
    rewrite He1, Hq1. by split_and!.
  - injection Hsettled as <-. cbn [AskPage.messages].
    eexists _, _. rewrite Hwt, <- app_assoc. split; [reflexivity |].
    unfold AskPage.submit_disabled.
    cbn [AskPage.error AskPage.loading AskPage.currentQuestion].
    rewrite Hq1. split_and!; try done; by apply error_text_truthy.
Qed.

(** A round that ends with an answer: the two messages, field by
    field. *)
Lemma X4_chat_round_trip_witness :
  ∃ st2 asked reply,
    AskPage.handleSubmit_settled (js "t3") (Api.Fulfilled answer_response)
      (AskPage.handleSubmit (js "t1") (js "t2") st_question).1 = Ok st2
    ∧ AskPage.messages st2 = [asked; reply]
    ∧ prop asked "type" = JStr (js "user")
    ∧ prop asked "content" = JStr (js "What is the sprint goal?")
    ∧ prop asked "timestamp" = JStr (js "t1")
    ∧ prop reply "type" = JStr (js "assistant")
    ∧ prop reply "content" = JStr (js "The sprint goal is X.")
    ∧ prop reply "processingTime" = JNum 1234%float
    ∧ AskPage.submit_disabled st2 = true.
Proof.
  eexists.
  destruct (X4_chat_round_trip (js "t1") (js "t2") (js "t3")
              (Api.Fulfilled answer_response) st_question _ _ _
              (Forall_nil_2 _) eq_refl eq_refl)
    as (asked & reply & Hm & Ht & Hc & Hts & _ & _ & _
        & (Hrt & Hrc & _ & _ & Hrp & _) & _ & _ & Hd).
  exists asked, reply. split; [reflexivity |]. split; [exact Hm |].
  split; [exact Ht |]. split; [exact Hc |]. split; [exact Hts |].
  split; [exact Hrt |]. split; [exact Hrc |]. split; [exact Hrp | exact Hd].
Defined.

(** X5.  In every state the page can reach (mount, typing, submit,
    settling of a call, clearing, the settings), every message has a
    bubble ([renderMessage] never returns nothing for it), at most one
    message is a thinking placeholder, and there is none unless the page
    is loading. *)
Theorem X5_chat_invariant (st : AskPage.State) :
  AskPage.reachable st →
  Forall AskPage.rendered (AskPage.messages st)
  ∧ length (filter AskPage.thinking (AskPage.messages st)) ≤ 1
  ∧ (AskPage.loading st = false →
     Forall (λ m, ¬ AskPage.thinking m) (AskPage.messages st)).
Proof.
  unfold AskPage.reachable. revert st. apply rtc_ind_r.
  { simpl. split_and!; [constructor | lia | constructor]. }
  intros st st' Hrtc Hstep (Hr & Hc & Hi).
  assert (∀ l : list JsValue, Forall AskPage.rendered l →
            Forall AskPage.rendered (AskPage.withoutThinking l)) as Hrw.
  { intros l Hl. apply Forall_forall. intros m Hm.
    apply withoutThinking_sublist in Hm. rewrite Forall_forall in Hl. auto. }
  assert (∀ l : list JsValue, filter AskPage.thinking (AskPage.withoutThinking l) = []) as Hnone.
  { intros l. apply filter_none. apply Forall_forall. intros m Hm.
    apply not_thinking_iff.
    pose proof (withoutThinking_no_thinking l) as Hall.
    rewrite Forall_forall in Hall. auto. }
  assert (∀ l : list JsValue, Forall (λ m, ¬ AskPage.thinking m) (AskPage.withoutThinking l)) as Hnt.
  { intros l. eapply Forall_impl; [apply withoutThinking_no_thinking |].
    intros m. apply not_thinking_iff. }
  inversion Hstep as [t s | q s | t1 t2 s | t o s s' Hs | t s | x s | x s | s]; subst;
    try (by split_and!).
  - simpl. split_and!; [by repeat constructor | cbv; lia |].
    intros _. repeat constructor. by cbv.
  - unfold AskPage.handleSubmit.
    destruct (negb _ || AskPage.loading st) eqn:Hg; simpl; [by split_and! |].
    apply orb_false_elim in Hg as [_ Hl]. specialize (Hi Hl).
    split_and!.
    + rewrite !Forall_app. split_and!; [done | |]; by repeat constructor.
    + rewrite !filter_app, (filter_none _ _ Hi). cbv. lia.
    + done.
  - apply handleSubmit_settled_messages in Hs as (m & -> & Hm & Hn & Hl & _).
    split_and!.
    + apply Forall_app. split; [by apply Hrw | by repeat constructor].
    + rewrite filter_app, Hnone. simpl. rewrite filter_cons.
      destruct (decide _); [done | simpl; lia].
    + intros _. apply Forall_app. split; [apply Hnt | by repeat constructor].
  - simpl. split_and!; [by repeat constructor | cbv; lia |].
    intros _. repeat constructor. by cbv.
Qed.

(** The page waiting for the answer to a question is reachable: it has
    one placeholder, and both its messages have a bubble. *)
Lemma X5_chat_invariant_witness :
  AskPage.reachable st_waiting
  ∧ Forall AskPage.rendered (AskPage.messages st_waiting)
  ∧ length (filter AskPage.thinking (AskPage.messages st_waiting)) = 1.
Proof.
  assert (AskPage.reachable st_waiting) as Hreach.
  { unfold AskPage.reachable.
    eapply rtc_l; [apply (AskPage.step_type (js " What is the sprint goal? ")) |].
    eapply rtc_l; [| apply rtc_refl].
    apply (AskPage.step_submit (js "2024-05-01T10:00:00.000Z")
             (js "2024-05-01T10:00:00.001Z")). }
  split; [exact Hreach |].
  split; [exact (proj1 (X5_chat_invariant st_waiting Hreach)) | reflexivity].
Defined.

(** X6.  Clearing the conversation does not cancel a call in flight:
    the page keeps loading, and when the call settles its answer is put
    after the "conversation cleared" message, without the question it
    answers. *)
Theorem X6_clear_does_not_cancel (t_clear t_reply : jsstring) (resp : JsValue)
    (st : AskPage.State) :
  nullish resp = false →
  AskPage.loading (AskPage.clearConversation t_clear st) = AskPage.loading st
  ∧ AskPage.submit_disabled (AskPage.clearConversation t_clear st)
      = AskPage.submit_disabled st
  ∧ ∃ st', AskPage.handleSubmit_settled t_reply (Api.Fulfilled resp)
             (AskPage.clearConversation t_clear st) = Ok st'
      ∧ AskPage.messages st'
          = [AskPage.clearedMessage t_clear;
             AskPage.assistantMessage (prop resp "answer") (prop resp "sources")
               (prop resp "model_info") (prop resp "processing_time_ms") t_reply]
      ∧ AskPage.loading st' = false.
Proof.
  intros Hn. split; [done |]. split; [done |].
  eexists. rewrite handleSubmit_settled_fulfilled by done.
  split; [reflexivity |]. done.
Qed.

(** Clearing while the answer about the sprint goal is awaited. *)
Lemma X6_clear_does_not_cancel_witness :
  ∃ st', AskPage.handleSubmit_settled (js "t4") (Api.Fulfilled answer_response)
           (AskPage.clearConversation (js "t3") st_waiting) = Ok st'
    ∧ AskPage.renderMessage <$> AskPage.messages st'
        = [AskPage.SystemBubble
             (JStr (js "Conversation cleared. Ask me anything about your uploaded documents!"));
           AskPage.AssistantBubble (JStr (js "The sprint goal is X."))
             (prop answer_response "sources") (JStr (js "t4")) (JNum 1234%float)].
Proof.
  destruct (X6_clear_does_not_cancel (js "t3") (js "t4") answer_response st_waiting
              eq_refl) as (_ & _ & st' & Hs & Hm & _).
  exists st'. split; [exact Hs |]. rewrite Hm. reflexivity.
Defined.

(** ** The interceptors *)

(** X7.  The request interceptor touches nothing but the Authorization
    header: method, url, body and every other header stay as they are.
    With a non-empty stored token the header is [Bearer] and the token,
    replacing a header the request had; without one the request is left
    as it is.  Running the interceptor twice is the same as once. *)
Theorem X7_request_interceptor_only_authorization (b : Api.Browser) (r : Api.Request) :
  Api.method (Api.request_interceptor b r) = Api.method r
  ∧ Api.url (Api.request_interceptor b r) = Api.url r
  ∧ Api.data (Api.request_interceptor b r) = Api.data r
  ∧ (∀ k, k ≠ "Authorization" →
       Api.headers (Api.request_interceptor b r) !! k = Api.headers r !! k)
  ∧ Api.headers (Api.request_interceptor b r) !! "Authorization"
      = match Api.bearer b with
        | Some h => Some h
        | None => Api.headers r !! "Authorization"
        end
  ∧ (Api.bearer b = None → Api.request_interceptor b r = r)
  ∧ Api.request_interceptor b (Api.request_interceptor b r)
      = Api.request_interceptor b r.
Proof.
  unfold Api.request_interceptor, Api.bearer.
  destruct (Api.getItem b "authToken") as [token|]; [| by split_and!].
  destruct (truthy (JStr token)); [| by split_and!].
  destruct r as [m u h d]. unfold Api.set_header. simpl.
  split_and!; try done.
  - intros k Hk. by rewrite lookup_insert_ne.
  - by rewrite lookup_insert_eq.
  - by rewrite insert_insert_eq.
Qed.

(** A stale header is replaced when a token is stored, kept when not. *)
Lemma X7_request_interceptor_only_authorization_witness :
  Api.headers (Api.request_interceptor browser_logged_in request_with_header)
    !! "Authorization" = Some (js "Bearer abc.def.ghi")
  ∧ Api.headers (Api.request_interceptor browser_logged_in request_with_header)
      !! "Content-Type" = Some (js "application/json")
  ∧ Api.request_interceptor browser_logged_out request_with_header
      = request_with_header.
Proof.
  pose proof (X7_request_interceptor_only_authorization browser_logged_in
                request_with_header) as (_ & _ & _ & Hk & Ha & _).
  pose proof (X7_request_interceptor_only_authorization browser_logged_out
                request_with_header) as (_ & _ & _ & _ & _ & Hn & _).
  split; [exact Ha |]. split; [| exact (Hn eq_refl)].
  rewrite Hk by done. reflexivity.
Defined.

(** X8.  After a response with status 401 the client is logged out for
    good: with the browser state the rejection leaves, the request
    interceptor attaches no Authorization header, so every later request
    goes out exactly as the API function built it. *)
Theorem X8_no_credentials_after_401 (r : Api.HttpResponse) (b : Api.Browser)
    (next : Api.Request) :
  Api.status r = 401%N →
  Api.bearer (Api.receive (Some r) b).1 = None
  ∧ Api.request_interceptor (Api.receive (Some r) b).1 next = next.
Proof.
  intros H401. unfold Api.receive.
  rewrite (settle_not_2xx _ (validateStatus_401 _ H401)).
  unfold Api.response_rejected, Api.status_is_401. simpl. rewrite H401. simpl.
  assert (Api.getItem
            (Api.set_location_href (js "/login")
               (Api.removeItem "userData" (Api.removeItem "authToken" b)))
            "authToken" = None) as Hnone.
  { unfold Api.getItem. simpl. rewrite lookup_delete_ne by done.
    apply lookup_delete_eq. }
  unfold Api.bearer, Api.request_interceptor. by rewrite Hnone.
Qed.

(** The upload that follows a 401 has no Authorization header. *)
Lemma X8_no_credentials_after_401_witness :
  Api.headers
    (Api.request_interceptor
       (Api.receive (Some response_401) browser_logged_in).1
       (Api.uploadPDF file_pdf_at_limit)) !! "Authorization" = None
  ∧ Api.headers
      (Api.request_interceptor browser_logged_in (Api.uploadPDF file_pdf_at_limit))
      !! "Authorization" = Some (js "Bearer abc.def.ghi").
Proof.
  split; [| reflexivity].
  rewrite (proj2 (X8_no_credentials_after_401 response_401 browser_logged_in
                    (Api.uploadPDF file_pdf_at_limit) eq_refl)).
  reflexivity.
Defined.

(** X9.  An ask from the reply to the screen.  A 2xx reply with a body
    that is not null adds an assistant message built from the body and
    leaves the browser state alone.  Any other status adds an error
    message whose content is the [detail] of the body when that is
    truthy and the fixed apology otherwise, and sets the banner likewise
    (with its own fallback).  No reply at all gives the two fallback
    texts and leaves the browser state alone. *)
Theorem X9_ask_from_reply_to_screen (t : jsstring) (b : Api.Browser)
    (st : AskPage.State) :
  (∀ r, Api.validateStatus (Api.status r) = true →
        nullish (Api.response_data r) = false →
        (Api.api_settled (Some r) b).1 = b
        ∧ ∃ st', AskPage.handleSubmit_settled t (Api.api_settled (Some r) b).2 st = Ok st'
            ∧ last (AskPage.messages st')
                = Some (AskPage.assistantMessage
                          (prop (Api.response_data r) "answer")
                          (prop (Api.response_data r) "sources")
                          (prop (Api.response_data r) "model_info")
                          (prop (Api.response_data r) "processing_time_ms") t))
  ∧ (∀ r, Api.validateStatus (Api.status r) = false →
        ∃ st', AskPage.handleSubmit_settled t (Api.api_settled (Some r) b).2 st = Ok st'
          ∧ last (AskPage.messages st')
              = Some (AskPage.errorMessage
                        (jor (prop (Api.response_data r) "detail")
                           (JStr (js "Sorry, I encountered an error while processing your question.")))
                        t)
          ∧ AskPage.error st'
              = jor (prop (Api.response_data r) "detail")
                    (JStr (js "Failed to get answer")))
  ∧ (Api.api_settled None b).1 = b
  ∧ ∃ st', AskPage.handleSubmit_settled t (Api.api_settled None b).2 st = Ok st'
      ∧ last (AskPage.messages st')
          = Some (AskPage.errorMessage
                    (JStr (js "Sorry, I encountered an error while processing your question."))
                    t)
      ∧ AskPage.error st' = JStr (js "Failed to get answer").
Proof.
  split_and!.
  - intros r Hok Hn.
    assert (Api.api_settled (Some r) b = (b, Api.Fulfilled (Api.response_data r)))
      as ->.
    { unfold Api.api_settled, Api.receive, Api.settle. by rewrite Hok. }
    split; [done |]. eexists. cbn [snd].
    rewrite handleSubmit_settled_fulfilled by done.
    split; [reflexivity |]. simpl. by rewrite last_snoc.
  - intros r Hbad. unfold Api.api_settled, Api.receive.
    rewrite (settle_not_2xx _ Hbad). simpl.
    eexists. split; [reflexivity |]. simpl. by rewrite last_snoc.
  - done.
  - eexists. split; [reflexivity |]. simpl. by rewrite last_snoc.
Qed.

(** A 200 with an answer, and a 503 with a detail. *)
Lemma X9_ask_from_reply_to_screen_witness :
  (∃ st', AskPage.handleSubmit_settled (js "t3")
            (Api.api_settled (Some response_200) browser_logged_in).2 st_waiting = Ok st'
     ∧ AskPage.renderMessage <$> last (AskPage.messages st')
         = Some (AskPage.AssistantBubble (JStr (js "The sprint goal is X."))
                   (prop answer_response "sources") (JStr (js "t3")) (JNum 1234%float)))
  ∧ (∃ st', AskPage.handleSubmit_settled (js "t3")
            (Api.api_settled (Some response_503) browser_logged_in).2 st_waiting = Ok st'
     ∧ AskPage.renderMessage <$> last (AskPage.messages st')
         = Some (AskPage.ErrorBubble (JStr (js "LLM service unavailable"))
                   (JStr (js "t3")))
     ∧ AskPage.error st' = JStr (js "LLM service unavailable")).
Proof.
  pose proof (X9_ask_from_reply_to_screen (js "t3") browser_logged_in st_waiting)
    as (Hok & Hbad & _).
  split.
  - destruct (Hok response_200 eq_refl eq_refl) as (_ & st' & Hs & Hl).
    exists st'. split; [exact Hs |]. rewrite Hl. reflexivity.
  - destruct (Hbad response_503 eq_refl) as (st' & Hs & Hl & He).
    exists st'. split; [exact Hs |]. rewrite Hl, He. split; reflexivity.
Defined.

(** ** The upload page *)

Section UploadFacts.
Import Api UploadPage.

Lemma find_first {A} (P : A → bool) (pre : list A) (x : A) (rest : list A) :
  Forall (λ y, P y = false) pre → P x = true →
  List.find P (pre ++ x :: rest) = Some x.
Proof.
  induction 1 as [|y pre Hy _ IH]; simpl; intros Hx.
  - by rewrite Hx.
  - rewrite Hy. by apply IH.
Qed.

Lemma find_none_all {A} (P : A → bool) (l : list A) :
  Forall (λ y, P y = false) l → List.find P l = None.
Proof. induction 1 as [|y l Hy _ IH]; simpl; [done |]. by rewrite Hy. Qed.

Lemma handleFileUpload_dragOver (file : option File) (st : State) :
  dragOver (handleFileUpload file st).1 = dragOver st.
Proof.
  unfold handleFileUpload. destruct file as [f|]; [| done].
  destruct (negb _); [done |]. by destruct (MAX_SIZE <? file_size f)%N.
Qed.

Lemma handleFileUpload_pdf (f : File) (st : State) :
  file_type f = js "application/pdf" →
  (handleFileUpload (Some f) st).2
    = if (file_size f <=? MAX_SIZE)%N then Some (uploadPDF f) else None.
Proof.
  intros Ht. unfold handleFileUpload. rewrite bool_decide_eq_true_2 by done. simpl.
  rewrite N.leb_antisym. by destruct (MAX_SIZE <? file_size f)%N.
Qed.

End UploadFacts.

(** X10.  A drop uploads at most one file: the first PDF among the
    dropped files, whatever comes before or after it, and only if it is
    within the size limit; the request is then a multipart POST to
    /files/upload with that file as form data.  When the first PDF is
    too large nothing is uploaded (a later, smaller PDF is not tried)
    and the error cell reads "File size must be less than 50MB".
    Without any PDF the error cell reads "Please drop a PDF file", no
    request is made and the rest of the state stays.  The drag highlight
    is off after every drop.  The file input differs: it looks at the
    first file only, so a non-PDF in front means no upload and the error
    "Please select a PDF file". *)
Theorem X10_drop_uploads_first_pdf (files : list Api.File) (st : UploadPage.State) :
  UploadPage.dragOver (UploadPage.handleDrop files st).1 = false
  ∧ (∀ pre f rest,
       files = pre ++ f :: rest →
       Forall (λ g, Api.file_type g ≠ js "application/pdf") pre →
       Api.file_type f = js "application/pdf" →
       if (Api.file_size f <=? UploadPage.MAX_SIZE)%N
       then ∃ req, (UploadPage.handleDrop files st).2 = Some req
                   ∧ Api.is_upload_of req f
       else (UploadPage.handleDrop files st).2 = None
            ∧ UploadPage.error (UploadPage.handleDrop files st).1
                = JStr (js "File size must be less than 50MB"))
  ∧ (Forall (λ g, Api.file_type g ≠ js "application/pdf") files →
       (UploadPage.handleDrop files st).2 = None
       ∧ UploadPage.error (UploadPage.handleDrop files st).1
           = JStr (js "Please drop a PDF file")
       ∧ UploadPage.documents (UploadPage.handleDrop files st).1
           = UploadPage.documents st
       ∧ UploadPage.uploading (UploadPage.handleDrop files st).1
           = UploadPage.uploading st
       ∧ UploadPage.uploadProgress (UploadPage.handleDrop files st).1
           = UploadPage.uploadProgress st
       ∧ UploadPage.success (UploadPage.handleDrop files st).1
           = UploadPage.success st)
  ∧ (∀ f rest,
       files = f :: rest → Api.file_type f ≠ js "application/pdf" →
       (UploadPage.handleFileSelect files st).2 = None
       ∧ UploadPage.error (UploadPage.handleFileSelect files st).1
           = JStr (js "Please select a PDF file")).
Proof.
  assert (∀ l : list Api.File,
            Forall (λ g, Api.file_type g ≠ js "application/pdf") l →
            Forall (λ g, bool_decide (Api.file_type g = js "application/pdf") = false) l)
    as Hconv.
  { intros l Hl. eapply Forall_impl; [exact Hl |].
    intros g Hg. by apply bool_decide_eq_false_2. }
  split_and!.
  - unfold UploadPage.handleDrop. destruct (List.find _ files); [| done].
    by rewrite handleFileUpload_dragOver.
  - intros pre f rest -> Hpre Hf. unfold UploadPage.handleDrop.
    rewrite (find_first _ pre f rest (Hconv _ Hpre)) by (by apply bool_decide_eq_true_2).
    unfold UploadPage.handleFileUpload. rewrite bool_decide_eq_true_2 by done.
    cbn [negb]. rewrite N.leb_antisym.
    destruct (UploadPage.MAX_SIZE <? Api.file_size f)%N; cbn [negb].
    + done.
    + eexists. split; [reflexivity |]. simpl.
      split_and!; by rewrite ?lookup_insert_eq.
  - intros Hall. unfold UploadPage.handleDrop.
    by rewrite (find_none_all _ _ (Hconv _ Hall)).
  - intros f rest -> Hf. unfold UploadPage.handleFileSelect, UploadPage.handleFileUpload.
    by rewrite bool_decide_eq_false_2.
Qed.

(** A text file in front of a PDF: the drop uploads the PDF, the file
    input uploads nothing.  An oversized PDF in front of a small one:
    nothing is uploaded.  Only text files: the drop says so. *)
Lemma X10_drop_uploads_first_pdf_witness :
  (∃ req,
     (UploadPage.handleDrop [file_text; file_pdf_small; file_pdf_at_limit]
        upload_state).2 = Some req
     ∧ Api.method req = Api.POST
     ∧ Api.url req = js "/files/upload"
     ∧ Api.data req = Api.FormData file_pdf_small)
  ∧ (UploadPage.handleFileSelect [file_text; file_pdf_small; file_pdf_at_limit]
       upload_state).2 = None
  ∧ UploadPage.error
      (UploadPage.handleFileSelect [file_text; file_pdf_small; file_pdf_at_limit]
         upload_state).1 = JStr (js "Please select a PDF file")
  ∧ (UploadPage.handleDrop [file_pdf_too_large; file_pdf_small] upload_state).2 = None
  ∧ UploadPage.error (UploadPage.handleDrop [file_text] upload_state).1
      = JStr (js "Please drop a PDF file").
Proof.
  pose proof (X10_drop_uploads_first_pdf
                [file_text; file_pdf_small; file_pdf_at_limit] upload_state)
    as (_ & Hfirst & _ & Hselect).
  pose proof (X10_drop_uploads_first_pdf [file_pdf_too_large; file_pdf_small]
                upload_state) as (_ & Hlarge & _).
  pose proof (X10_drop_uploads_first_pdf [file_text] upload_state)
    as (_ & _ & Hnone & _).
  split_and!.
  - destruct (Hfirst [file_text] file_pdf_small [file_pdf_at_limit] eq_refl)
      as (req & Hreq & Hm & Hu & Hd & _); [by repeat constructor | done |].
    exists req. by split_and!.
  - by apply (Hselect file_text [file_pdf_small; file_pdf_at_limit]).
  - by apply (Hselect file_text [file_pdf_small; file_pdf_at_limit]).
  - by apply (Hlarge [] file_pdf_too_large [file_pdf_small]).
  - apply Hnone. by repeat constructor.
Defined.

(** X11.  An upload from the accepted file to the settled call.  The
    page is no longer uploading and shows exactly one of the two
    messages.  After a fulfilled call with a body that is not null: the
    success text, which names the [filename] and the [chunks_created]
    of the body, an empty error, the bar at 100 and the reload timer
    set; when the timer fires the bar goes back to 0, the page is
    loading and the document list is requested (GET /files/documents).
    After a rejected call: as error the [detail] of the response when it
    is truthy and "Upload failed" otherwise, no success text, the bar at
    0 and no timer; a fulfilled call with a null body ends the same way
    with "Upload failed". *)
Theorem X11_upload_round (ToString : JsValue → jsstring) (f : Api.File)
    (outcome : Api.Settled JsValue) (st st1 : UploadPage.State) (req : Api.Request) :
  UploadPage.handleFileUpload (Some f) st = (st1, Some req) →
  UploadPage.uploading (UploadPage.handleFileUpload_settled ToString outcome st1).1 = false
  ∧ UploadPage.documents (UploadPage.handleFileUpload_settled ToString outcome st1).1
      = UploadPage.documents st
  ∧ match outcome with
    | Api.Fulfilled (JUndefined | JNull) =>
        UploadPage.error (UploadPage.handleFileUpload_settled ToString outcome st1).1
          = JStr (js "Upload failed")
        ∧ UploadPage.success (UploadPage.handleFileUpload_settled ToString outcome st1).1
            = JStr []
        ∧ UploadPage.uploadProgress
            (UploadPage.handleFileUpload_settled ToString outcome st1).1 = 0%N
        ∧ (UploadPage.handleFileUpload_settled ToString outcome st1).2 = false
    | Api.Rejected e =>
        UploadPage.error (UploadPage.handleFileUpload_settled ToString outcome st1).1
          = jor (AskPage.error_detail e) (JStr (js "Upload failed"))
        ∧ truthy (UploadPage.error
                    (UploadPage.handleFileUpload_settled ToString outcome st1).1) = true
        ∧ UploadPage.success (UploadPage.handleFileUpload_settled ToString outcome st1).1
            = JStr []
        ∧ UploadPage.uploadProgress
            (UploadPage.handleFileUpload_settled ToString outcome st1).1 = 0%N
        ∧ (UploadPage.handleFileUpload_settled ToString outcome st1).2 = false
    | Api.Fulfilled resp =>
        UploadPage.success (UploadPage.handleFileUpload_settled ToString outcome st1).1
          = JStr (js "File " ++ [34%N] ++ ToString (prop resp "filename") ++ [34%N]
                    ++ js " uploaded successfully! Generated "
                    ++ ToString (prop resp "chunks_created") ++ js " text chunks.")
        ∧ UploadPage.error (UploadPage.handleFileUpload_settled ToString outcome st1).1
            = JStr []
        ∧ UploadPage.uploadProgress
            (UploadPage.handleFileUpload_settled ToString outcome st1).1 = 100%N
        ∧ (UploadPage.handleFileUpload_settled ToString outcome st1).2 = true
        ∧ UploadPage.uploadProgress
            (UploadPage.upload_timer
               (UploadPage.handleFileUpload_settled ToString outcome st1).1).1 = 0%N
        ∧ UploadPage.loading
            (UploadPage.upload_timer
               (UploadPage.handleFileUpload_settled ToString outcome st1).1).1 = true
        ∧ Api.method
            (UploadPage.upload_timer
               (UploadPage.handleFileUpload_settled ToString outcome st1).1).2 = Api.GET
        ∧ Api.url
            (UploadPage.upload_timer
               (UploadPage.handleFileUpload_settled ToString outcome st1).1).2
            = js "/files/documents"
        ∧ Api.data
            (UploadPage.upload_timer
               (UploadPage.handleFileUpload_settled ToString outcome st1).1).2
            = Api.NoBody
    end.
Proof.
  intros H. unfold UploadPage.handleFileUpload in H.
  destruct (negb _); [done |]. destruct (UploadPage.MAX_SIZE <? _)%N; [done |].
  injection H as <- <-.
  destruct outcome as [resp|e]; [destruct resp |]; cbn; split_and!; try done.
  by apply jor_truthy.
Qed.

(** A small PDF is accepted and the call is fulfilled, or is rejected
    with a 503, or with no response at all. *)
Lemma X11_upload_round_witness :
  UploadPage.success
    (UploadPage.handleFileUpload_settled ToString_empty (Api.Fulfilled upload_response)
       (UploadPage.handleFileUpload (Some file_pdf_small) upload_state).1).1
    = JStr ([70; 105; 108; 101; 32; 34; 34]%N
              ++ js " uploaded successfully! Generated  text chunks.")
  ∧ UploadPage.error
      (UploadPage.handleFileUpload_settled ToString_empty
         (Api.Rejected {| Api.response := Some response_503 |})
         (UploadPage.handleFileUpload (Some file_pdf_small) upload_state).1).1
    = JStr (js "LLM service unavailable")
  ∧ UploadPage.error
      (UploadPage.handleFileUpload_settled ToString_empty
         (Api.Rejected {| Api.response := None |})
         (UploadPage.handleFileUpload (Some file_pdf_small) upload_state).1).1
    = JStr (js "Upload failed").
Proof.
  pose proof (X11_upload_round ToString_empty file_pdf_small
                (Api.Fulfilled upload_response) upload_state _ _ eq_refl)
    as (_ & _ & Hs & _).
  pose proof (X11_upload_round ToString_empty file_pdf_small
                (Api.Rejected {| Api.response := Some response_503 |})
                upload_state _ _ eq_refl) as (_ & _ & H503 & _).
  pose proof (X11_upload_round ToString_empty file_pdf_small
                (Api.Rejected {| Api.response := None |})
                upload_state _ _ eq_refl) as (_ & _ & Hnone & _).
  split; [exact Hs |]. split; [exact H503 | exact Hnone].
Defined.

(** ** The dashboard: loading *)

Section DashboardMore.
Import Api DashboardPage.

Lemma loadDashboardData_unfold (s d h : Settled JsValue) (st : State) :
  loadDashboardData s d h st =
    let stats' := match s with Fulfilled v => v | Rejected _ => stats st end in
    match documents_step d with
    | Throw _ =>
        {| stats := stats'; recentDocuments := recentDocuments st;
           loading := false; healthStatus := healthStatus st |}
    | Ok docs =>
        {| stats := stats';
           recentDocuments := default (recentDocuments st) docs;
           loading := false;
           healthStatus :=
             if truthy (health_or_null h) then health_or_null h
             else healthStatus st |}
    end.
Proof.
  unfold loadDashboardData, load_try, documents_step.
  destruct d as [v|e]; simpl.
  - destruct (member v "documents") as [ds|]; simpl; [| by destruct s].
    destruct (slice_0_5 ds) as [d5|]; simpl; [| by destruct s].
    destruct (truthy (health_or_null h)); by destruct s.
  - destruct (truthy (health_or_null h)); by destruct s.
Qed.

End DashboardMore.

(** X12.  When the documents call is fulfilled with a body whose
    [documents] is an array, the dashboard keeps the first five of them,
    in the order of the response, whatever the other two calls did: at
    most five documents are listed, and all of them when there are no
    more than five. *)
Theorem X12_recent_documents_first_five (s h : Api.Settled JsValue) (body : JsValue)
    (items : list JsValue) (st : DashboardPage.State) :
  prop body "documents" = JArr items →
  DashboardPage.recentDocuments
    (DashboardPage.loadDashboardData s (Api.Fulfilled body) h st) = JArr (take 5 items)
  ∧ length (take 5 items) ≤ 5
  ∧ take 5 items `prefix_of` items
  ∧ (length items ≤ 5 → take 5 items = items).
Proof.
  intros Hd. rewrite loadDashboardData_unfold. unfold DashboardPage.documents_step, member.
  assert (nullish body = false) as -> by (by destruct body).
  simpl. rewrite Hd. simpl. split_and!; [done | | |].
  - rewrite length_take. lia.
  - apply prefix_take.
  - intros Hl. by apply take_ge.
Qed.

(** Seven documents in the response: five are listed. *)
Lemma X12_recent_documents_first_five_witness :
  ∃ items,
    DashboardPage.recentDocuments
      (DashboardPage.loadDashboardData (Api.Fulfilled stats_response)
         (Api.Fulfilled seven_documents) (Api.Fulfilled health_response)
         DashboardPage.initial) = JArr items
    ∧ length items = 5.
Proof.
  eexists. split.
  - exact (proj1 (X12_recent_documents_first_five (Api.Fulfilled stats_response)
                    (Api.Fulfilled health_response) seven_documents _
                    DashboardPage.initial eq_refl)).
  - reflexivity.
Defined.

(** X13.  The three calls of the dashboard fail independently.  A
    rejected stats call keeps the stats the page had and changes nothing
    else of the outcome; a rejected health check is the same as one that
    answered [null]: the health the page had stays, the load does not
    fail; a rejected documents call keeps the list and does not stop the
    health update.  The spinner always ends. *)
Theorem X13_dashboard_calls_fail_independently (s d h : Api.Settled JsValue)
    (e : Api.AxiosError) (v : JsValue) (st : DashboardPage.State) :
  DashboardPage.loading (DashboardPage.loadDashboardData s d h st) = false
  ∧ DashboardPage.stats (DashboardPage.loadDashboardData (Api.Rejected e) d h st)
      = DashboardPage.stats st
  ∧ DashboardPage.recentDocuments
      (DashboardPage.loadDashboardData (Api.Rejected e) d h st)
      = DashboardPage.recentDocuments
          (DashboardPage.loadDashboardData (Api.Fulfilled v) d h st)
  ∧ DashboardPage.healthStatus
      (DashboardPage.loadDashboardData (Api.Rejected e) d h st)
      = DashboardPage.healthStatus
          (DashboardPage.loadDashboardData (Api.Fulfilled v) d h st)
  ∧ DashboardPage.loadDashboardData s d (Api.Rejected e) st
      = DashboardPage.loadDashboardData s d (Api.Fulfilled JNull) st
  ∧ DashboardPage.healthStatus
      (DashboardPage.loadDashboardData s d (Api.Rejected e) st)
      = DashboardPage.healthStatus st
  ∧ DashboardPage.recentDocuments
      (DashboardPage.loadDashboardData s (Api.Rejected e) h st)
      = DashboardPage.recentDocuments st
  ∧ DashboardPage.healthStatus
      (DashboardPage.loadDashboardData s (Api.Rejected e) (Api.Fulfilled v) st)
      = (if truthy v then v else DashboardPage.healthStatus st).
Proof.
  rewrite !loadDashboardData_unfold. simpl.
  split_and!; try done; by destruct (DashboardPage.documents_step d).
Qed.

(** X14.  A documents response whose [documents] is neither an array
    nor a string makes the load throw in the middle: the stats, set
    before, are kept, but the list and the health status stay as they
    were although the health check answered; the spinner still ends. *)
Theorem X14_bad_documents_drop_health (v body h : JsValue) (st : DashboardPage.State) :
  (∀ items, prop body "documents" ≠ JArr items) →
  (∀ s, prop body "documents" ≠ JStr s) →
  DashboardPage.loadDashboardData (Api.Fulfilled v) (Api.Fulfilled body)
    (Api.Fulfilled h) st
  = {| DashboardPage.stats := v;
       DashboardPage.recentDocuments := DashboardPage.recentDocuments st;
       DashboardPage.loading := false;
       DashboardPage.healthStatus := DashboardPage.healthStatus st |}.
Proof.
  intros Harr Hstr. rewrite loadDashboardData_unfold. unfold DashboardPage.documents_step, member.
  destruct (nullish body); [done |]. simpl.
  destruct (prop body "documents") as [| | | | s | items |]; try done.
  - by destruct (Hstr s).
  - by destruct (Harr items).
Qed.

(** A documents body without the list: the panel stays empty although
    the health check answered. *)
Lemma X14_bad_documents_drop_health_witness :
  DashboardPage.system_status ToNumber_nan
    (DashboardPage.loadDashboardData (Api.Fulfilled stats_response)
       (Api.Fulfilled documents_without_list) (Api.Fulfilled health_response)
       DashboardPage.initial) = None
  ∧ DashboardPage.stats
      (DashboardPage.loadDashboardData (Api.Fulfilled stats_response)
         (Api.Fulfilled documents_without_list) (Api.Fulfilled health_response)
         DashboardPage.initial) = stats_response.
Proof.
  assert (∀ items, prop documents_without_list "documents" ≠ JArr items) as H1 by done.
  assert (∀ s, prop documents_without_list "documents" ≠ JStr s) as H2 by done.
  rewrite (X14_bad_documents_drop_health stats_response documents_without_list
             health_response DashboardPage.initial H1 H2).
  split; reflexivity.
Defined.

(** ** The routes *)

(** X15.  The route guards.  From every route, following at most two
    redirects ends on the spinner or on a page, so there is no redirect
    loop.  While the authentication state is loading, the five guarded
    routes and [/] show the spinner.  Once it is known, the spinner is
    not shown, a visitor who is not authenticated never gets the
    dashboard, upload or ask page, an authenticated one never gets the
    login or register page, and exactly the three protected pages are
    wrapped in the layout. *)
Theorem X15_route_guards (auth : App.Auth) (r : App.Route) :
  ∃ e, App.screen 2 auth r = Some e
    ∧ match e with
      | App.Spinner => App.loading auth = true ∧ r ≠ App.path_any
      | App.Show p layout =>
          (r = App.path_any ∨ App.loading auth = false)
          ∧ (App.protected p = true → App.isAuthenticated auth = true)
          ∧ (App.public_only p = true → App.isAuthenticated auth = false)
          ∧ layout = App.protected p
      | App.Navigate _ => False
      end.
Proof.
  destruct auth as [[] []], r; eexists; (split; [reflexivity |]); simpl;
    split_and!; try done; first [by left | by right].
Qed.

(** Not logged in, the root route ends on the login page after two
    redirects; logged in, the login route ends on the dashboard. *)
Lemma X15_route_guards_witness :
  App.screen 2 {| App.isAuthenticated := false; App.loading := false |} App.path_root
    = Some (App.Show App.Login false)
  ∧ App.screen 1 {| App.isAuthenticated := false; App.loading := false |} App.path_root
    = None
  ∧ App.screen 2 {| App.isAuthenticated := true; App.loading := false |} App.path_login
    = Some (App.Show App.Dashboard true)
  ∧ App.isAuthenticated {| App.isAuthenticated := true; App.loading := false |} = true.
Proof.
  destruct (X15_route_guards {| App.isAuthenticated := true; App.loading := false |}
              App.path_login) as (e & He & Hm).
  assert (e = App.Show App.Dashboard true) as -> by (by injection He).
  destruct Hm as (_ & Hp & _).
  split_and!; [reflexivity | reflexivity | reflexivity | exact (Hp eq_refl)].
Defined.

(** ** The early ask page *)

(** X16.  However the call of the early ask page settles, the
    references it stores are never [undefined], [null] or another falsy
    value (a missing or falsy [references] becomes the empty array), so
    the page can read their length.  A fulfilled call whose body is
    [null] or [undefined] is shown like a failure. *)
Theorem X16_early_references_never_missing (outcome : Api.Settled Api.HttpResponse)
    (st : EarlyAskPage.State) :
  truthy (EarlyAskPage.references (EarlyAskPage.handleAsk_settled outcome st)) = true
  ∧ EarlyAskPage.question (EarlyAskPage.handleAsk_settled outcome st)
      = EarlyAskPage.question st
  ∧ (∀ res, outcome = Api.Fulfilled res → nullish (Api.response_data res) = true →
       EarlyAskPage.handleAsk_settled outcome st = EarlyAskPage.handleAsk_catch st)
  ∧ (∀ res, outcome = Api.Fulfilled res →
       truthy (prop (Api.response_data res) "references") = false →
       EarlyAskPage.references (EarlyAskPage.handleAsk_settled outcome st) = JArr []).
Proof.
  unfold EarlyAskPage.handleAsk_settled, EarlyAskPage.handleAsk_try, member.
  destruct outcome as [res|e]; [| by split_and!].
  destruct (nullish (Api.response_data res)) eqn:Hn; simpl.
  - by split_and!.
  - split_and!; [by apply jor_truthy | done | |].
    + intros res' [= <-] Hf. congruence.
    + intros res' [= <-] Hf. by apply jor_falsy.
Qed.

(** A body with an answer and no references. *)
Lemma X16_early_references_never_missing_witness :
  EarlyAskPage.references
    (EarlyAskPage.handleAsk_settled (Api.Fulfilled response_200) EarlyAskPage.initial)
  = JArr []
  ∧ EarlyAskPage.answer
      (EarlyAskPage.handleAsk_settled (Api.Fulfilled response_200) EarlyAskPage.initial)
    = JStr (js "The sprint goal is X.").
Proof.
  split; [| reflexivity].
  apply (proj2 (proj2 (proj2 (X16_early_references_never_missing
                                (Api.Fulfilled response_200) EarlyAskPage.initial)))
           response_200); reflexivity.
Defined.

(** ** Further edge cases *)

(** X17.  The vector-database light of the dashboard, by what the health
    response has under [vector_store.total_chunks]: red when the field
    or the whole [vector_store] is missing and when the count is NaN or
    negative; green for every count from 0 on, so an empty index counts
    as healthy, and also for [null], [true] and [false], which compare
    as numbers. *)
Theorem X17_vector_light_edge_cases (ToNumber_other : JsValue → float)
    (st : DashboardPage.State) (v : JsValue) :
  DashboardPage.loading st = false →
  truthy (DashboardPage.healthStatus st) = true →
  prop (prop (DashboardPage.healthStatus st) "vector_store") "total_chunks" = v →
  DashboardPage.light_vector_database <$> DashboardPage.system_status ToNumber_other st
  = Some match v with
         | JUndefined => DashboardPage.Red
         | JNull | JBool _ => DashboardPage.Green
         | JNum x => DashboardPage.light (PrimFloat.leb 0%float x)
         | _ => DashboardPage.light (PrimFloat.leb 0%float (ToNumber_other v))
         end.
Proof.
  intros Hl Hh Hv. unfold DashboardPage.system_status. rewrite Hl, Hh. simpl.
  rewrite Hv. destruct v as [| | [] | | | |]; reflexivity.
Qed.

(** An index with no chunks is shown green; a response without
    [vector_store] red. *)
Lemma X17_vector_light_edge_cases_witness :
  DashboardPage.light_vector_database
    <$> DashboardPage.system_status ToNumber_nan (dashboard_with_health health_empty_index)
    = Some DashboardPage.Green
  ∧ DashboardPage.light_vector_database
      <$> DashboardPage.system_status ToNumber_nan
            (dashboard_with_health health_without_store)
      = Some DashboardPage.Red.
Proof.
  split.
  - exact (X17_vector_light_edge_cases ToNumber_nan
             (dashboard_with_health health_empty_index) (JNum 0%float)
             eq_refl eq_refl eq_refl).
  - exact (X17_vector_light_edge_cases ToNumber_nan
             (dashboard_with_health health_without_store) JUndefined
             eq_refl eq_refl eq_refl).
Defined.

(** X18.  The drop zone has no guard for an upload in flight.  The
    file input is not offered while the page is uploading, but a drop
    is handled in every state, and whether it uploads depends on the
    dropped files alone: a PDF within the limit that is dropped first
    while another upload runs is uploaded as well (a multipart POST to
    /files/upload with that file), the page stays uploading and the
    progress bar starts again from 0. *)
Theorem X18_drop_not_guarded_by_uploading (files : list Api.File)
    (st st' : UploadPage.State) (f : Api.File) :
  (UploadPage.handleDrop files st).2 = (UploadPage.handleDrop files st').2
  ∧ (Api.file_type f = js "application/pdf" →
     (Api.file_size f ≤ UploadPage.MAX_SIZE)%N →
     UploadPage.uploading st = true →
     UploadPage.file_input_shown st = false
     ∧ ∃ req, (UploadPage.handleDrop (f :: files) st).2 = Some req
         ∧ Api.is_upload_of req f
         ∧ UploadPage.uploading (UploadPage.handleDrop (f :: files) st).1 = true
         ∧ UploadPage.uploadProgress (UploadPage.handleDrop (f :: files) st).1 = 0%N).
Proof.
  assert (∀ file s s', (UploadPage.handleFileUpload file s).2
                       = (UploadPage.handleFileUpload file s').2) as Hind.
  { intros file s s'. unfold UploadPage.handleFileUpload. destruct file as [g|]; [| done].
    destruct (negb _); [done |]. by destruct (UploadPage.MAX_SIZE <? _)%N. }
  split.
  - unfold UploadPage.handleDrop. destruct (List.find _ files); [apply Hind | done].
  - intros Ht Hs Hu. split; [unfold UploadPage.file_input_shown; by rewrite Hu |].
    unfold UploadPage.handleDrop. simpl.
    rewrite bool_decide_eq_true_2 by done.
    unfold UploadPage.handleFileUpload. rewrite bool_decide_eq_true_2 by done. simpl.
    apply N.ltb_ge in Hs. rewrite Hs. eexists. split; [reflexivity |].
    simpl. split_and!; by rewrite ?lookup_insert_eq.
Qed.

(** A second PDF dropped while the first is being uploaded. *)
Lemma X18_drop_not_guarded_by_uploading_witness :
  UploadPage.uploading (UploadPage.handleDrop [file_pdf_small] upload_state).1 = true
  ∧ UploadPage.file_input_shown
      (UploadPage.handleDrop [file_pdf_small] upload_state).1 = false
  ∧ ∃ req,
      (UploadPage.handleDrop [file_pdf_at_limit]
         (UploadPage.handleDrop [file_pdf_small] upload_state).1).2 = Some req
      ∧ Api.method req = Api.POST
      ∧ Api.url req = js "/files/upload"
      ∧ Api.data req = Api.FormData file_pdf_at_limit.
Proof.
  split; [reflexivity |].
  destruct (proj2 (X18_drop_not_guarded_by_uploading []
                     (UploadPage.handleDrop [file_pdf_small] upload_state).1
                     upload_state file_pdf_at_limit))
    as (Hshown & req & Hreq & (Hm & Hu & Hd & _) & _); [done | done | done |].
  split; [exact Hshown |]. exists req. by split_and!.
Defined.

(** X19.  A rejection whose [detail] is not something React can show (a
    plain object, or an array with one in it, as a validation error
    has) is stored as it is, as the content of the error message and in
    the error cell; rendering the error bubble and rendering the banner
    then both throw. *)
Theorem X19_object_detail_breaks_rendering (t : jsstring) (e : Api.AxiosError)
    (st : AskPage.State) :
  react_child (AskPage.error_detail e) = false →
  ∃ st' m,
    AskPage.handleSubmit_settled t (Api.Rejected e) st = Ok st'
    ∧ last (AskPage.messages st') = Some m
    ∧ prop m "type" = JStr (js "error")
    ∧ prop m "content" = AskPage.error_detail e
    ∧ AskPage.error st' = AskPage.error_detail e
    ∧ AskPage.bubble_text (AskPage.renderMessage m) = Throw ReactError
    ∧ AskPage.error_banner st' = Throw ReactError.
Proof.
  intros Hbad.
  assert (truthy (AskPage.error_detail e) = true) as Ht.
  { destruct (AskPage.error_detail e); done. }
  assert (∀ d, jor (AskPage.error_detail e) d = AskPage.error_detail e) as Hjor.
  { intros d. unfold jor. by rewrite Ht. }
  eexists _, _. split; [reflexivity |].
  cbn [AskPage.messages AskPage.error]. rewrite last_snoc, !Hjor.
  split; [reflexivity |]. split; [reflexivity |]. split; [reflexivity |].
  split; [reflexivity |]. split.
  - rewrite renderMessage_errorMessage. unfold AskPage.bubble_text, jsx_child.
    by rewrite Hbad.
  - unfold AskPage.error_banner. cbn [AskPage.error].
    rewrite Ht. unfold jsx_child. by rewrite Hbad.
Qed.

(** A 422 whose detail is a list with one object. *)
Lemma X19_object_detail_breaks_rendering_witness :
  ∃ st' m,
    AskPage.handleSubmit_settled (js "2024-05-01T10:00:02.000Z")
      (Api.Rejected {| Api.response := Some response_422 |}) st_waiting = Ok st'
    ∧ last (AskPage.messages st') = Some m
    ∧ prop m "content" = prop (Api.response_data response_422) "detail"
    ∧ AskPage.bubble_text (AskPage.renderMessage m) = Throw ReactError
    ∧ AskPage.error_banner st' = Throw ReactError.
Proof.
  destruct (X19_object_detail_breaks_rendering (js "2024-05-01T10:00:02.000Z")
              {| Api.response := Some response_422 |} st_waiting eq_refl)
    as (st' & m & Hs & Hl & _ & Hc & _ & Hb & He).
  exists st', m. by split_and!.
Defined.
